(** * libSBML: document engine, duplicate-id constraint and formatter

    A shallow embedding of

      - [src/sbml/SBMLDocument.cpp]  (consistency checks, compatibility
        checks, conversion entry point, element lookup, package
        enabling),
      - [UniqueSpatialIds.cpp]       (the duplicate-identifier constraint
        of the spatial package),
      - the scenarios of [TestSBMLFormatter.cpp],

    followed by the properties established about them.  The first half of
    the file holds the embedding, the second half the theorems. *)

From Stdlib Require Import Ascii.
From stdpp Require Import base numbers strings gmap list pretty.

(* ===================================================================== *)
(** * Part I.  The embedding                                              *)
(* ===================================================================== *)

(** ** Machine integers

    [unsigned int] is 32 bits wide on every platform libSBML supports;
    counters of that type are natural numbers with the wrap-around written
    out. *)

Definition UINT_MODULUS : N := 2 ^ 32.

Definition uint_add (a b : N) : N := ((a + b) `mod` UINT_MODULUS)%N.

(* --------------------------------------------------------------------- *)
(** ** UniqueSpatialIds.cpp                                               *)
(* --------------------------------------------------------------------- *)

Module UniqueSpatialIds.

(** What the constraint reads of an [SBase] object. *)
Record SBase := {
  isSetId        : bool;
  getId          : string;
  getElementName : string;
  getLine        : N              (* unsigned int; 0 when unknown *)
}.

(** [CoordinateComponent]: the component itself and its two boundaries,
    each an object with an id of its own. *)
Record CoordinateComponent := {
  cc_object      : SBase;
  getBoundaryMax : SBase;
  getBoundaryMin : SBase
}.

(** The part of the spatial [Geometry] that [doCheck] walks. *)
Record Geometry := {
  g_object                : SBase;
  getAdjacentDomains      : list SBase;
  getCoordinateComponents : list CoordinateComponent;
  getDomainTypes          : list SBase;
  getDomains              : list SBase;
  getGeometryDefinitions  : list SBase;
  getSampledFields        : list SBase
}.

(** The model as [doCheck] sees it: the geometry of the model plugin when
    [isSetGeometry()], and for every compartment the compartment mapping
    of its plugin when [isSetCompartmentMapping()]. *)
Record Model := {
  getGeometry             : option Geometry;
  getCompartmentMappings  : list (option SBase)
}.

(** The constraint object: the scratch map [mIdMap]
    ([std::map<std::string, const SBase*>]) and the failures it has handed
    to its validator through [logFailure]. *)
Record t := {
  mIdMap   : gmap string SBase;
  failures : list (SBase * string)
}.

(** The constructor leaves [mIdMap] empty. *)
Definition create : t := {| mIdMap := ∅; failures := [] |}.

(** [std::map::insert]: the map is left alone when the key is present;
    the boolean is the [.second] of the returned pair. *)
Definition map_insert (k : string) (v : SBase) (m : gmap string SBase)
  : gmap string SBase * bool :=
  match m !! k with
  | Some _ => (m, false)
  | None   => (<[k := v]> m, true)
  end.

(** [TConstraint::logFailure(object, message)]: one more failure on the
    validator's list. *)
Definition logFailure (object : SBase) (message : string) (c : t) : t :=
  {| mIdMap := mIdMap c; failures := failures c ++ [(object, message)] |}.

Definition internal_error_message : string :=
  "Internal (but non-fatal) Validator error in " +:+
  "UniqueSpatialIds::getMessage().  The SBML object with duplicate id was " +:+
  "not found when it came time to construct a descriptive error message.".

Definition getMessage (id : string) (object : SBase) (c : t) : string :=
  match mIdMap c !! id with
  | None => internal_error_message
  | Some previous =>
      let msg := "  The <" +:+ getElementName object
                 +:+ "> id '" +:+ id
                 +:+ "' conflicts with the previously defined <"
                 +:+ getElementName previous
                 +:+ "> id '" +:+ id +:+ "'" in
      let msg := if decide (getLine previous ≠ 0%N)
                 then msg +:+ " at line " +:+ pretty (getLine previous)
                 else msg in
      msg +:+ "."
  end.

Definition logIdConflict (id : string) (object : SBase) (c : t) : t :=
  logFailure object (getMessage id object c) c.

Definition reset (c : t) : t :=
  {| mIdMap := ∅; failures := failures c |}.

Definition doCheckId (object : SBase) (c : t) : t :=
  if isSetId object then
    let id := getId object in
    let '(m, inserted) := map_insert id object (mIdMap c) in
    let c := {| mIdMap := m; failures := failures c |} in
    if negb inserted then logIdConflict id object c else c
  else c.

Definition logId (object : SBase) (c : t) : t :=
  if isSetId object then
    {| mIdMap := (map_insert (getId object) object (mIdMap c)).1;
       failures := failures c |}
  else c.

(** A [for (n = 0; n < size; n++) doCheckId(...)] loop. *)
Definition doCheckIds (objects : list SBase) (c : t) : t :=
  foldl (λ c o, doCheckId o c) c objects.

Definition doCheckCoordinateComponent (cc : CoordinateComponent) (c : t) : t :=
  doCheckId (getBoundaryMin cc)
    (doCheckId (getBoundaryMax cc) (doCheckId (cc_object cc) c)).

Definition doCheckGeometry (g : Geometry) (c : t) : t :=
  let c := doCheckId (g_object g) c in
  let c := doCheckIds (getAdjacentDomains g) c in
  let c := foldl (λ c cc, doCheckCoordinateComponent cc c) c
                 (getCoordinateComponents g) in
  let c := doCheckIds (getDomainTypes g) c in
  let c := doCheckIds (getDomains g) c in
  let c := doCheckIds (getGeometryDefinitions g) c in
  doCheckIds (getSampledFields g) c.

Definition doCheckCompartment (mapping : option SBase) (c : t) : t :=
  match mapping with
  | Some cm => doCheckId cm c
  | None    => c
  end.

Definition doCheck (m : Model) (c : t) : t :=
  let c := match getGeometry m with
           | Some g => doCheckGeometry g c
           | None   => c
           end in
  let c := foldl (λ c cm, doCheckCompartment cm c) c
                 (getCompartmentMappings m) in
  reset c.

Definition check_ (m : Model) (c : t) : t := doCheck m c.

(** *** Vocabulary of the properties

    The first object, in checking order, that presents the id [id]. *)
Definition first_with_id (id : string) (seen : list SBase) : option SBase :=
  snd <$> list_find (λ p, isSetId p = true ∧ getId p = id) seen.

(** The text of a conflict, spelled out from its four ingredients. *)
Definition conflict_text (kind previous_kind id : string) (previous_line : N)
  : string :=
  "  The <" +:+ kind +:+ "> id '" +:+ id
  +:+ "' conflicts with the previously defined <" +:+ previous_kind
  +:+ "> id '" +:+ id +:+ "'"
  +:+ (if decide (previous_line = 0%N) then ""
       else " at line " +:+ pretty previous_line)
  +:+ ".".

(** The objects of a model in the order in which [doCheck] visits them. *)
Definition coordinate_component_objects (cc : CoordinateComponent) : list SBase :=
  [cc_object cc; getBoundaryMax cc; getBoundaryMin cc].

Definition geometry_objects (g : Geometry) : list SBase :=
  g_object g :: getAdjacentDomains g
  ++ (getCoordinateComponents g ≫= coordinate_component_objects)
  ++ getDomainTypes g ++ getDomains g
  ++ getGeometryDefinitions g ++ getSampledFields g.

Definition checked_objects (m : Model) : list SBase :=
  from_option geometry_objects [] (getGeometry m)
  ++ omap id (getCompartmentMappings m).

(** What one call of [doCheckId] adds to the log when the objects in
    [seen] were checked before it in the same run. *)
Definition conflict_of (seen : list SBase) (object : SBase)
  : list (SBase * string) :=
  if isSetId object then
    match first_with_id (getId object) seen with
    | Some previous =>
        [(object, conflict_text (getElementName object)
                    (getElementName previous) (getId object)
                    (getLine previous))]
    | None => []
    end
  else [].

(** [c] with [pre] put in front of what it has logged. *)
Definition with_earlier (pre : list (SBase * string)) (c : t) : t :=
  {| mIdMap := mIdMap c; failures := pre ++ failures c |}.

(** A tree with a repeated id, used to exercise the definitions. *)
Definition obj (kind id : string) (line : N) : SBase :=
  {| isSetId := true; getId := id; getElementName := kind; getLine := line |}.

Definition sample_model : Model :=
  {| getGeometry := Some
       {| g_object := obj "geometry" "g" 3;
          getAdjacentDomains := [obj "adjacentDomains" "d1" 4];
          getCoordinateComponents :=
            [{| cc_object := obj "coordinateComponent" "x" 5;
                getBoundaryMax := obj "boundaryMax" "xmax" 6;
                getBoundaryMin := obj "boundaryMin" "x" 0 |}];
          getDomainTypes := [obj "domainType" "d1" 8];
          getDomains := [];
          getGeometryDefinitions := [];
          getSampledFields := [] |};
     getCompartmentMappings := [None; Some (obj "compartmentMapping" "g" 12)] |}.

End UniqueSpatialIds.

(* --------------------------------------------------------------------- *)
(** ** The error log                                                      *)
(* --------------------------------------------------------------------- *)

Module ErrorLog.

(** Severities of a failure record (info / warning / error / fatal); the
    severity table also holds codes that are none of the four, such as
    "not applicable at this level and version". *)
Inductive XMLErrorSeverity_t :=
  | LIBSBML_SEV_INFO
  | LIBSBML_SEV_WARNING
  | LIBSBML_SEV_ERROR
  | LIBSBML_SEV_FATAL
  | LIBSBML_SEV_OTHER (code : N).

#[global] Instance XMLErrorSeverity_eq_dec : EqDecision XMLErrorSeverity_t.
Proof. solve_decision. Defined.

(** The severity override of a log, as [SBMLDocument.cpp] uses it. *)
Inductive XMLErrorSeverityOverride_t :=
  | LIBSBML_OVERRIDE_DISABLED
  | LIBSBML_OVERRIDE_WARNING
  | LIBSBML_OVERRIDE_ERROR.

#[global] Instance XMLErrorSeverityOverride_eq_dec :
  EqDecision XMLErrorSeverityOverride_t.
Proof. solve_decision. Defined.

(** Error codes: the four that [SBMLDocument.cpp] logs by name in its
    compatibility checks, and every other code by its number. *)
Inductive SBMLErrorCode_t :=
  | StrictUnitsRequiredInL1
  | StrictUnitsRequiredInL2v1
  | StrictUnitsRequiredInL2v2
  | StrictUnitsRequiredInL2v3
  | ErrorCode (n : N).

#[global] Instance SBMLErrorCode_eq_dec : EqDecision SBMLErrorCode_t.
Proof. solve_decision. Defined.

Record SBMLError := {
  getErrorId  : SBMLErrorCode_t;
  getSeverity : XMLErrorSeverity_t;
  getLevel    : N;
  getVersion  : N
}.

#[global] Instance SBMLError_eq_dec : EqDecision SBMLError.
Proof. solve_decision. Defined.

(** The per-level, per-version severity table of [SBMLErrorTable.h] is not
    among the sources; it is a parameter of the development:
    [severity_at id level version] is the severity that the constructor
    [SBMLError(id, level, version)] gives the error. *)
Class SeverityTable :=
  severity_at : SBMLErrorCode_t → N → N → XMLErrorSeverity_t.

Section WithTable.
Context {table : SeverityTable}.

Definition SBMLError_create (errorId : SBMLErrorCode_t) (level version : N)
  : SBMLError :=
  {| getErrorId := errorId; getSeverity := severity_at errorId level version;
     getLevel := level; getVersion := version |}.

(** [getLevelVersionSeverity] of [SBMLDocument.cpp]. *)
Definition getLevelVersionSeverity (errorId : SBMLErrorCode_t) (level version : N)
  : XMLErrorSeverity_t :=
  getSeverity (SBMLError_create errorId level version).

(** Some failure of the list would be of severity "error" at the given
    level and version. *)
Definition some_error_at (level version : N) (errors : list SBMLError) : Prop :=
  Exists (λ e, getLevelVersionSeverity (getErrorId e) level version
               = LIBSBML_SEV_ERROR) errors.

#[global] Instance some_error_at_dec level version errors :
  Decision (some_error_at level version errors).
Proof. unfold some_error_at. apply _. Defined.

End WithTable.

Record SBMLErrorLog := {
  mErrors             : list SBMLError;
  mOverriddenSeverity : XMLErrorSeverityOverride_t
}.

Definition getSeverityOverride (log : SBMLErrorLog) : XMLErrorSeverityOverride_t :=
  mOverriddenSeverity log.

Definition setSeverityOverride (severity : XMLErrorSeverityOverride_t)
  (log : SBMLErrorLog) : SBMLErrorLog :=
  {| mErrors := mErrors log; mOverriddenSeverity := severity |}.

(** Modelled from the spec: the log's append operation ([XMLErrorLog::add],
    not among the sources).  The log is an ordered, append-only sequence
    of failure records whose override, while it is on, forces the severity
    of what is appended (force-as-error, force-as-warning). *)
Definition overridden (o : XMLErrorSeverityOverride_t) (e : SBMLError) : SBMLError :=
  match o with
  | LIBSBML_OVERRIDE_DISABLED => e
  | LIBSBML_OVERRIDE_WARNING =>
      {| getErrorId := getErrorId e; getSeverity := LIBSBML_SEV_WARNING;
         getLevel := getLevel e; getVersion := getVersion e |}
  | LIBSBML_OVERRIDE_ERROR =>
      {| getErrorId := getErrorId e; getSeverity := LIBSBML_SEV_ERROR;
         getLevel := getLevel e; getVersion := getVersion e |}
  end.

Definition add (e : SBMLError) (log : SBMLErrorLog) : SBMLErrorLog :=
  {| mErrors := mErrors log ++ [overridden (mOverriddenSeverity log) e];
     mOverriddenSeverity := mOverriddenSeverity log |}.

(** [add(const std::list<SBMLError>&)]: every element in turn. *)
Definition add_list (errors : list SBMLError) (log : SBMLErrorLog) : SBMLErrorLog :=
  foldl (λ log e, add e log) log errors.

(** Modelled from the spec: [SBMLErrorLog::logError(id, level, version)]
    (not among the sources) builds the failure record for the code and
    appends it. *)
Definition logError {table : SeverityTable} (errorId : SBMLErrorCode_t)
  (level version : N) (log : SBMLErrorLog) : SBMLErrorLog :=
  add (SBMLError_create errorId level version) log.

(** Modelled from the spec: the log can be queried by severity;
    [getNumFailsWithSeverity] (not among the sources) counts the records
    of the given severity. *)
Definition getNumFailsWithSeverity (severity : XMLErrorSeverity_t)
  (log : SBMLErrorLog) : N :=
  N.of_nat (length (filter (λ e, getSeverity e = severity) (mErrors log))).

End ErrorLog.

(* --------------------------------------------------------------------- *)
(** ** XML attribute lists                                                *)
(* --------------------------------------------------------------------- *)

Module XMLAttributes.

(** Modelled from the spec: [XMLAttributes] (not among the sources), the
    side table in which the document keeps the "required" attribute of
    packages it has no implementation for.  [SBMLDocument.cpp] reads it by
    position ([getLength], [getName(i)], [getValue(i)], [getURI(i)],
    [getPrefix(i)]), so it is a sequence of attributes; it uses [add] both
    to record a new attribute and, in [setPackageRequired], to change the
    value of the one recorded for a package, so [add] replaces the
    attribute that has the same name and namespace URI and appends
    otherwise; [remove(i)] drops the attribute at a position. *)
Record XMLAttribute := {
  attr_name   : string;
  attr_value  : string;
  attr_uri    : string;
  attr_prefix : string
}.

#[global] Instance XMLAttribute_eq_dec : EqDecision XMLAttribute.
Proof. solve_decision. Defined.

Abbreviation t := (list XMLAttribute).

Definition getLength (attrs : t) : nat := length attrs.

Definition getIndex (name uri : string) (attrs : t) : option nat :=
  fst <$> list_find (λ a, attr_name a = name ∧ attr_uri a = uri) attrs.

Definition getValue (name uri : string) (attrs : t) : string :=
  match list_find (λ a, attr_name a = name ∧ attr_uri a = uri) attrs with
  | Some (_, a) => attr_value a
  | None => ""
  end.

Definition add (name value uri prefix : string) (attrs : t) : t :=
  let a := {| attr_name := name; attr_value := value;
              attr_uri := uri; attr_prefix := prefix |} in
  match getIndex name uri attrs with
  | Some index => <[index := a]> attrs
  | None => attrs ++ [a]
  end.

Definition remove (n : nat) (attrs : t) : t := delete n attrs.

(** What [SBMLDocument.cpp] keeps true of its two side tables: every
    attribute it adds to them is named "required", and [add] never leaves
    two attributes of one name for the same namespace URI. *)
Definition required_table (attrs : t) : Prop :=
  Forall (λ a, attr_name a = "required") attrs ∧ NoDup (attr_uri <$> attrs).

End XMLAttributes.

(* --------------------------------------------------------------------- *)
(** ** SBMLDocument.cpp                                                   *)
(* --------------------------------------------------------------------- *)

Module Document.
Import ErrorLog.

(** Status codes of [operationReturnValues.h] that the file names, and
    any other by its number. *)
Inductive OperationReturnValues_t :=
  | LIBSBML_OPERATION_SUCCESS
  | LIBSBML_OPERATION_FAILED
  | LIBSBML_PKG_UNKNOWN_VERSION
  | LIBSBML_CONV_CONVERSION_NOT_AVAILABLE
  | ReturnCode (code : Z).

Inductive SBMLErrorCategory_t :=
  | LIBSBML_CAT_GENERAL_CONSISTENCY
  | LIBSBML_CAT_IDENTIFIER_CONSISTENCY
  | LIBSBML_CAT_UNITS_CONSISTENCY
  | LIBSBML_CAT_OTHER (code : N).

(** The classes the document works with and that are not among the
    sources: the model, the plugins of the document, the elements below
    them, and the validators a caller attaches. *)
Class Collaborators := {
  Model         : Type;
  Plugin        : Type;
  Element       : Type;
  SBMLValidator : Type;
  Model_getId                    : Model → string;
  Model_getMetaId                : Model → string;
  Model_getElementBySId          : Model → string → option Element;
  Model_getElementByMetaId       : Model → string → option Element;
  getElementFromPluginsBySId     : list Plugin → string → option Element;
  getElementFromPluginsByMetaId  : list Plugin → string → option Element;
  (** [Model::enablePackageInternal(pkgURI, pkgPrefix, flag)] *)
  Model_enablePackageInternal    : string → string → bool → Model → Model;
  (** [SBase::enablePackageInternal(pkgURI, pkgPrefix, flag)], on the
      plugins the base class holds *)
  SBase_enablePackageInternal    : string → string → bool → list Plugin → list Plugin
}.

Section WithCollaborators.
Context {collaborators : Collaborators}.

Record SBMLDocument := {
  mMetaId       : string;                (* SBase *)
  mPlugins      : list Plugin;           (* SBase *)
  mLevel        : N;
  mVersion      : N;
  mModel        : option Model;
  mLocationURI  : string;
  mErrorLog     : SBMLErrorLog;
  mValidators   : list SBMLValidator;
  mApplicableValidators : N;             (* mInternalValidator, unsigned char *)
  mConversionValidators : N;             (* mInternalValidator, unsigned char *)
  mRequiredAttrOfUnknownPkg         : XMLAttributes.t;
  mRequiredAttrOfUnknownDisabledPkg : XMLAttributes.t;
  mPkgUseDefaultNSMap               : gmap string bool
}.

(** Assignments to one member. *)
Definition set_mPlugins (v : list Plugin) (d : SBMLDocument) : SBMLDocument :=
  {| mMetaId := mMetaId d; mPlugins := v; mLevel := mLevel d;
     mVersion := mVersion d; mModel := mModel d;
     mLocationURI := mLocationURI d; mErrorLog := mErrorLog d;
     mValidators := mValidators d;
     mApplicableValidators := mApplicableValidators d;
     mConversionValidators := mConversionValidators d;
     mRequiredAttrOfUnknownPkg := mRequiredAttrOfUnknownPkg d;
     mRequiredAttrOfUnknownDisabledPkg := mRequiredAttrOfUnknownDisabledPkg d;
     mPkgUseDefaultNSMap := mPkgUseDefaultNSMap d |}.

Definition set_mModel (v : option Model) (d : SBMLDocument) : SBMLDocument :=
  {| mMetaId := mMetaId d; mPlugins := mPlugins d; mLevel := mLevel d;
     mVersion := mVersion d; mModel := v;
     mLocationURI := mLocationURI d; mErrorLog := mErrorLog d;
     mValidators := mValidators d;
     mApplicableValidators := mApplicableValidators d;
     mConversionValidators := mConversionValidators d;
     mRequiredAttrOfUnknownPkg := mRequiredAttrOfUnknownPkg d;
     mRequiredAttrOfUnknownDisabledPkg := mRequiredAttrOfUnknownDisabledPkg d;
     mPkgUseDefaultNSMap := mPkgUseDefaultNSMap d |}.

Definition set_mErrorLog (v : SBMLErrorLog) (d : SBMLDocument) : SBMLDocument :=
  {| mMetaId := mMetaId d; mPlugins := mPlugins d; mLevel := mLevel d;
     mVersion := mVersion d; mModel := mModel d;
     mLocationURI := mLocationURI d; mErrorLog := v;
     mValidators := mValidators d;
     mApplicableValidators := mApplicableValidators d;
     mConversionValidators := mConversionValidators d;
     mRequiredAttrOfUnknownPkg := mRequiredAttrOfUnknownPkg d;
     mRequiredAttrOfUnknownDisabledPkg := mRequiredAttrOfUnknownDisabledPkg d;
     mPkgUseDefaultNSMap := mPkgUseDefaultNSMap d |}.

Definition set_mApplicableValidators (v : N) (d : SBMLDocument) : SBMLDocument :=
  {| mMetaId := mMetaId d; mPlugins := mPlugins d; mLevel := mLevel d;
     mVersion := mVersion d; mModel := mModel d;
     mLocationURI := mLocationURI d; mErrorLog := mErrorLog d;
     mValidators := mValidators d;
     mApplicableValidators := v;
     mConversionValidators := mConversionValidators d;
     mRequiredAttrOfUnknownPkg := mRequiredAttrOfUnknownPkg d;
     mRequiredAttrOfUnknownDisabledPkg := mRequiredAttrOfUnknownDisabledPkg d;
     mPkgUseDefaultNSMap := mPkgUseDefaultNSMap d |}.

Definition set_unknownPkg (pkg disabled : XMLAttributes.t)
  (useDefaultNS : gmap string bool) (d : SBMLDocument) : SBMLDocument :=
  {| mMetaId := mMetaId d; mPlugins := mPlugins d; mLevel := mLevel d;
     mVersion := mVersion d; mModel := mModel d;
     mLocationURI := mLocationURI d; mErrorLog := mErrorLog d;
     mValidators := mValidators d;
     mApplicableValidators := mApplicableValidators d;
     mConversionValidators := mConversionValidators d;
     mRequiredAttrOfUnknownPkg := pkg;
     mRequiredAttrOfUnknownDisabledPkg := disabled;
     mPkgUseDefaultNSMap := useDefaultNS |}.

Definition getErrorLog (d : SBMLDocument) : SBMLErrorLog := mErrorLog d.

(** [getNumErrors(unsigned int severity)] *)
Definition getNumErrors (severity : XMLErrorSeverity_t) (d : SBMLDocument) : N :=
  getNumFailsWithSeverity severity (getErrorLog d).

(** The document with the severity override of its log set to [o]. *)
Definition with_override (o : XMLErrorSeverityOverride_t) (d : SBMLDocument)
  : SBMLDocument :=
  set_mErrorLog (setSeverityOverride o (getErrorLog d)) d.

(** *** Element lookup *)

(** What a lookup can return: the document, its model, or an element
    found by the model or by a plugin. *)
Inductive SBaseRef :=
  | ThisDocument
  | TheModel
  | InTree (e : Element).

Definition getElementBySId (id : string) (d : SBMLDocument) : option SBaseRef :=
  if decide (id = "") then None else
  let from_plugins := InTree <$> getElementFromPluginsBySId (mPlugins d) id in
  match mModel d with
  | Some m =>
      if decide (Model_getId m = id) then Some TheModel else
      match Model_getElementBySId m id with
      | Some obj => Some (InTree obj)
      | None => from_plugins
      end
  | None => from_plugins
  end.

Definition getElementByMetaId (metaid : string) (d : SBMLDocument)
  : option SBaseRef :=
  if decide (metaid = "") then None else
  if decide (mMetaId d = metaid) then Some ThisDocument else
  let from_plugins := InTree <$> getElementFromPluginsByMetaId (mPlugins d) metaid in
  match mModel d with
  | Some m =>
      if decide (Model_getMetaId m = metaid) then Some TheModel else
      match Model_getElementByMetaId m metaid with
      | Some obj => Some (InTree obj)
      | None => from_plugins
      end
  | None => from_plugins
  end.

(** *** Validation *)

(** The validators, none of which is among the sources.  A check of the
    internal validator or of a document plugin reads the document, logs
    into its error log and returns its count; a [validate] call leaves its
    failures in the validator, from which [getFailures()] reads them. *)
Class Validators := {
  InternalValidator_checkConsistency      : SBMLDocument → N * SBMLErrorLog;
  InternalValidator_setConsistencyChecks  : SBMLErrorCategory_t → bool → N → N;
  InternalValidator_checkL1Compatibility   : SBMLDocument → N * SBMLErrorLog;
  InternalValidator_checkL2v1Compatibility : SBMLDocument → N * SBMLErrorLog;
  InternalValidator_checkL2v2Compatibility : SBMLDocument → N * SBMLErrorLog;
  InternalValidator_checkL2v3Compatibility : SBMLDocument → N * SBMLErrorLog;
  DocumentPlugin_checkConsistency         : Plugin → SBMLDocument → N * SBMLErrorLog;
  SBMLValidator_validate                  : SBMLValidator → SBMLDocument → N * list SBMLError;
  UnitConsistencyValidator_validate       : SBMLDocument → N * list SBMLError;
  StrictUnitConsistencyValidator_validate : SBMLDocument → N * list SBMLError
}.

Section WithValidators.
Context {validators : Validators} {table : SeverityTable}.

Definition setConsistencyChecks (category : SBMLErrorCategory_t) (apply : bool)
  (d : SBMLDocument) : SBMLDocument :=
  set_mApplicableValidators
    (InternalValidator_setConsistencyChecks category apply (mApplicableValidators d)) d.

(** The loop over [getPlugin(i)], [i < getNumPlugins()]. *)
Definition check_plugins (numErrors : N) (d : SBMLDocument) : N * SBMLDocument :=
  foldl (λ '(numErrors, d) p,
           let '(n, log) := DocumentPlugin_checkConsistency p d in
           (uint_add numErrors n, set_mErrorLog log d))
        (numErrors, d) (mPlugins d).

(** The loop over [mValidators]. *)
Definition run_validators (numErrors : N) (d : SBMLDocument) : N * SBMLDocument :=
  foldl (λ '(numErrors, d) v,
           let '(newErrors, failures) := SBMLValidator_validate v d in
           if decide (0 < newErrors)%N
           then (uint_add numErrors newErrors,
                 set_mErrorLog (add_list failures (mErrorLog d)) d)
           else (numErrors, d))
        (numErrors, d) (mValidators d).

(** The three steps that [checkConsistency], [checkConsistencyWithStrictUnits]
    and [validateSBML] all spell out: internal validator, plugins,
    attached validators. *)
Definition run_checks (d : SBMLDocument) : N * SBMLDocument :=
  let '(numErrors, log) := InternalValidator_checkConsistency d in
  let d := set_mErrorLog log d in
  let '(numErrors, d) := check_plugins numErrors d in
  run_validators numErrors d.

Definition checkConsistency (d : SBMLDocument) : N * SBMLDocument :=
  let overrideStatus := getSeverityOverride (getErrorLog d) in
  let d := set_mErrorLog
             (setSeverityOverride LIBSBML_OVERRIDE_DISABLED (getErrorLog d)) d in
  let '(numErrors, d) := run_checks d in
  let d := set_mErrorLog (setSeverityOverride overrideStatus (getErrorLog d)) d in
  (numErrors, d).

Definition checkConsistencyWithStrictUnits (d : SBMLDocument) : N * SBMLDocument :=
  let overrideStatus := getSeverityOverride (getErrorLog d) in
  let d := set_mErrorLog
             (setSeverityOverride LIBSBML_OVERRIDE_DISABLED (getErrorLog d)) d in
  let d := setConsistencyChecks LIBSBML_CAT_UNITS_CONSISTENCY false d in
  let '(numErrors, d) := run_checks d in
  let seriousErrors :=
    bool_decide (0 < getNumErrors LIBSBML_SEV_FATAL d)%N
    || bool_decide (0 < getNumErrors LIBSBML_SEV_ERROR d)%N in
  if seriousErrors then
    let d := set_mErrorLog (setSeverityOverride overrideStatus (getErrorLog d)) d in
    (numErrors, d)
  else
    let d := set_mErrorLog
               (setSeverityOverride LIBSBML_OVERRIDE_ERROR (getErrorLog d)) d in
    let '(nerrors, failures) := StrictUnitConsistencyValidator_validate d in
    let numErrors := uint_add numErrors nerrors in
    let d := if decide (0 < nerrors)%N
             then set_mErrorLog (add_list failures (getErrorLog d)) d
             else d in
    let d := set_mErrorLog (setSeverityOverride overrideStatus (getErrorLog d)) d in
    (numErrors, d).

(** *** Compatibility checks *)

(** The scan of the unit failures as [checkL1Compatibility],
    [checkL2v2Compatibility] and [checkL2v3Compatibility] write it:
    [logUnitError = (sev == LIBSBML_SEV_ERROR)] under
    [while (!logUnitError && it != errors.end())]. *)
Fixpoint scan_assign (level version : N) (logUnitError : bool)
  (it : list SBMLError) : bool :=
  if logUnitError then logUnitError else
  match it with
  | [] => logUnitError
  | err :: it =>
      let sev := getLevelVersionSeverity (getErrorId err) level version in
      scan_assign level version (bool_decide (sev = LIBSBML_SEV_ERROR)) it
  end.

(** The same scan as [checkL2v1Compatibility] writes it:
    [if (sev == LIBSBML_SEV_ERROR) logUnitError = true]. *)
Fixpoint scan_set (level version : N) (logUnitError : bool)
  (it : list SBMLError) : bool :=
  if logUnitError then logUnitError else
  match it with
  | [] => logUnitError
  | err :: it =>
      let sev := getLevelVersionSeverity (getErrorId err) level version in
      scan_set level version
        (if decide (sev = LIBSBML_SEV_ERROR) then true else logUnitError) it
  end.

(** The part of a compatibility check after the internal validator has
    run, with what differs between the four functions as arguments: the
    scan and the strict-units code to log. *)
Definition check_units (scan : bool → list SBMLError → bool)
  (strictUnitsRequired : SBMLErrorCode_t) (inConversion : bool)
  (nerrors : N) (d : SBMLDocument) : N * SBMLDocument :=
  if negb inConversion then
    let '(unit_errors, errors) := UnitConsistencyValidator_validate d in
    if decide (0 < unit_errors)%N then
      let logUnitError := scan false errors in
      if logUnitError then
        let d := set_mErrorLog
                   (logError strictUnitsRequired (mLevel d) (mVersion d)
                      (getErrorLog d)) d in
        (uint_add nerrors 1, d)
      else (uint_add nerrors 0, d)
    else (uint_add nerrors unit_errors, d)
  else (uint_add nerrors 0, d).

Definition checkL1Compatibility (inConversion : bool) (d : SBMLDocument)
  : N * SBMLDocument :=
  let '(nerrors, log) := InternalValidator_checkL1Compatibility d in
  check_units (scan_assign 1 2) StrictUnitsRequiredInL1 inConversion
    nerrors (set_mErrorLog log d).

Definition checkL2v1Compatibility (inConversion : bool) (d : SBMLDocument)
  : N * SBMLDocument :=
  let '(nerrors, log) := InternalValidator_checkL2v1Compatibility d in
  check_units (scan_set 2 1) StrictUnitsRequiredInL2v1 inConversion
    nerrors (set_mErrorLog log d).

Definition checkL2v2Compatibility (inConversion : bool) (d : SBMLDocument)
  : N * SBMLDocument :=
  let '(nerrors, log) := InternalValidator_checkL2v2Compatibility d in
  check_units (scan_assign 1 2) StrictUnitsRequiredInL2v2 inConversion
    nerrors (set_mErrorLog log d).

Definition checkL2v3Compatibility (inConversion : bool) (d : SBMLDocument)
  : N * SBMLDocument :=
  let '(nerrors, log) := InternalValidator_checkL2v3Compatibility d in
  check_units (scan_assign 1 2) StrictUnitsRequiredInL2v3 inConversion
    nerrors (set_mErrorLog log d).

End WithValidators.

(** *** Conversion *)

(** The converter registry ([SBMLConverterRegistry], not among the
    sources): [getConverterFor] hands out a converter whose declared
    capability matches the properties, or none; [converter_convert c props]
    is [setDocument], [setProperties] and [convert()] on it. *)
Class ConverterRegistry := {
  ConversionProperties : Type;
  SBMLConverter        : Type;
  getConverterFor      : ConversionProperties → option SBMLConverter;
  converter_convert    : SBMLConverter → ConversionProperties → SBMLDocument
                         → OperationReturnValues_t * SBMLDocument
}.

Definition convert {registry : ConverterRegistry} (props : ConversionProperties)
  (d : SBMLDocument) : OperationReturnValues_t * SBMLDocument :=
  match getConverterFor props with
  | None => (LIBSBML_CONV_CONVERSION_NOT_AVAILABLE, d)
  | Some converter => converter_convert converter props d
  end.

(** *** Packages *)

(** The position and the attribute of the first entry for
    [(pkgURI, pkgPrefix)]: where the [for] loops of [enablePackageInternal]
    stop. *)
Definition find_package (pkgURI pkgPrefix : string) (attrs : XMLAttributes.t)
  : option (nat * XMLAttributes.XMLAttribute) :=
  list_find (λ a, pkgURI = XMLAttributes.attr_uri a
                  ∧ pkgPrefix = XMLAttributes.attr_prefix a) attrs.

(** The loop body: copy the entry into [to], remove it from [from]. *)
Definition move_package (pkgURI pkgPrefix : string) (from to : XMLAttributes.t)
  : XMLAttributes.t * XMLAttributes.t :=
  match find_package pkgURI pkgPrefix from with
  | Some (i, a) =>
      (XMLAttributes.remove i from,
       XMLAttributes.add (XMLAttributes.attr_name a) (XMLAttributes.attr_value a)
         pkgURI pkgPrefix to)
  | None => (from, to)
  end.

Definition enablePackageInternal (pkgURI pkgPrefix : string) (flag : bool)
  (d : SBMLDocument) : SBMLDocument :=
  let d := set_mPlugins
             (SBase_enablePackageInternal pkgURI pkgPrefix flag (mPlugins d)) d in
  let d :=
    if negb flag then
      let '(pkg, disabled) :=
        move_package pkgURI pkgPrefix (mRequiredAttrOfUnknownPkg d)
          (mRequiredAttrOfUnknownDisabledPkg d) in
      set_unknownPkg pkg disabled (delete pkgURI (mPkgUseDefaultNSMap d)) d
    else
      let '(disabled, pkg) :=
        move_package pkgURI pkgPrefix (mRequiredAttrOfUnknownDisabledPkg d)
          (mRequiredAttrOfUnknownPkg d) in
      set_unknownPkg pkg disabled (mPkgUseDefaultNSMap d) d in
  set_mModel (Model_enablePackageInternal pkgURI pkgPrefix flag <$> mModel d) d.

End WithCollaborators.

End Document.

(* --------------------------------------------------------------------- *)
(** ** A check pass, step by step                                         *)
(* --------------------------------------------------------------------- *)

Module ConsistencyPass.
Import ErrorLog Document.

Section WithValidators.
Context {collaborators : Collaborators} {validators : Validators}.

(** The checks of a pass as the specification describes them, to compare
    the code with: they run in a fixed order, every check on the document
    as the check before it left it, and a pass reports an aggregate count.
    The count is an [unsigned int], so it is kept below 2^32. *)

(** The plugins of the document, in their order: each logs into the error
    log and its count is added. *)
Fixpoint plugins_in_order (plugins : list Plugin) (count : N) (d : SBMLDocument)
  : N * SBMLDocument :=
  match plugins with
  | [] => (count, d)
  | p :: plugins =>
      let found := DocumentPlugin_checkConsistency p d in
      plugins_in_order plugins ((count + found.1) `mod` 2 ^ 32)%N
        (set_mErrorLog found.2 d)
  end.

(** The attached validators, in their order: one that reports no failure
    leaves count and log alone, the failures of any other are appended to
    the log and its count is added. *)
Fixpoint validators_in_order (attached : list SBMLValidator) (count : N)
  (d : SBMLDocument) : N * SBMLDocument :=
  match attached with
  | [] => (count, d)
  | v :: attached =>
      let found := SBMLValidator_validate v d in
      if decide (found.1 = 0%N) then validators_in_order attached count d
      else validators_in_order attached ((count + found.1) `mod` 2 ^ 32)%N
             (set_mErrorLog (add_list found.2 (mErrorLog d)) d)
  end.

(** The internal validator first, then the plugins, then the attached
    validators. *)
Definition pass_in_order (d : SBMLDocument) : N * SBMLDocument :=
  let found := InternalValidator_checkConsistency d in
  let after_plugins :=
    plugins_in_order (mPlugins d) found.1 (set_mErrorLog found.2 d) in
  validators_in_order (mValidators d) after_plugins.1 after_plugins.2.

(** The log holds a record of severity fatal or error. *)
Definition holds_serious_record (log : SBMLErrorLog) : Prop :=
  Exists (λ e, getSeverity e = LIBSBML_SEV_FATAL ∨ getSeverity e = LIBSBML_SEV_ERROR)
    (mErrors log).

#[global] Instance holds_serious_record_dec log : Decision (holds_serious_record log).
Proof. unfold holds_serious_record. apply _. Defined.

(** A failure record with its severity replaced by "error". *)
Definition as_error (e : SBMLError) : SBMLError :=
  {| getErrorId := getErrorId e; getSeverity := LIBSBML_SEV_ERROR;
     getLevel := getLevel e; getVersion := getVersion e |}.

End WithValidators.

End ConsistencyPass.

(* --------------------------------------------------------------------- *)
(** ** The formatter of TestSBMLFormatter.cpp                             *)
(* --------------------------------------------------------------------- *)

Module Formatter.

(** Modelled from the spec: the serializer ([SBMLFormatter], of which only
    the unit tests are among the sources).  Its rules are those the spec
    gives for writing a node under a schema revision: an attribute is
    written only if it is set and differs from its default (exponent 1,
    scale 0, stoichiometry 1, denominator 1, reversible true, fast false);
    children are written inside a list wrapper when there is at least one
    and not at all otherwise; names follow the revision ("specie" at
    Level 1 Version 1, "species" after it); the output starts with the one
    fixed XML declaration.  Element and attribute names, their order and
    the two-space indentation are those of the expected strings of the
    tests. *)

#[local] Set Warnings "-register-all".

Inductive XMLNode :=
  | XMLElement (name : string) (attributes : list (string * string))
               (children : list XMLNode).

Record Revision := { level : N; version : N }.

(** What a formatter writes when it is given no level and version. *)
Definition default_revision : Revision := {| level := 1; version := 2 |}.

Definition isL1v1 (r : Revision) : bool :=
  bool_decide (level r = 1%N ∧ version r = 1%N).

Inductive UnitKind_t :=
  | UNIT_KIND_KILOGRAM
  | UNIT_KIND_LITER
  | UNIT_KIND_MOLE
  | UNIT_KIND_SECOND.

Definition UnitKind_toString (k : UnitKind_t) : string :=
  match k with
  | UNIT_KIND_KILOGRAM => "kilogram"
  | UNIT_KIND_LITER => "liter"
  | UNIT_KIND_MOLE => "mole"
  | UNIT_KIND_SECOND => "second"
  end.

Record Unit := {
  kind     : UnitKind_t;
  exponent : Z;
  scale    : Z
}.

Record UnitDefinition := {
  ud_name : option string;
  units   : list Unit
}.

Record SpeciesReference := {
  species       : option string;
  stoichiometry : Z;
  denominator   : Z
}.

(** A parameter value is kept as the text the formatter prints for it. *)
Record Parameter_t := {
  p_name  : option string;
  p_value : option string;
  p_units : option string
}.

Record KineticLaw := {
  formula        : option string;
  timeUnits      : option string;
  substanceUnits : option string;
  parameters     : list Parameter_t
}.

Record Reaction := {
  r_name     : option string;
  reactants  : list SpeciesReference;
  products   : list SpeciesReference;
  kineticLaw : option KineticLaw;
  reversible : bool;
  fast       : bool
}.

(** [Unit_createWith(kind, exponent, scale)] and the other constructors
    the tests call. *)
Definition Unit_createWith (k : UnitKind_t) (e s : Z) : Unit :=
  {| kind := k; exponent := e; scale := s |}.

Definition UnitDefinition_createWith (name : string) : UnitDefinition :=
  {| ud_name := Some name; units := [] |}.

Definition UnitDefinition_addUnit (ud : UnitDefinition) (u : Unit) : UnitDefinition :=
  {| ud_name := ud_name ud; units := units ud ++ [u] |}.

Definition SpeciesReference_createWith (sp : string) (st den : Z) : SpeciesReference :=
  {| species := Some sp; stoichiometry := st; denominator := den |}.

Definition KineticLaw_create : KineticLaw :=
  {| formula := None; timeUnits := None; substanceUnits := None; parameters := [] |}.

Definition KineticLaw_setFormula (kl : KineticLaw) (f : string) : KineticLaw :=
  {| formula := Some f; timeUnits := timeUnits kl;
     substanceUnits := substanceUnits kl; parameters := parameters kl |}.

Definition Reaction_createWith (name : string) (kl : option KineticLaw)
  (rev fst : bool) : Reaction :=
  {| r_name := Some name; reactants := []; products := [];
     kineticLaw := kl; reversible := rev; fast := fst |}.

Definition Reaction_addReactant (r : Reaction) (sr : SpeciesReference) : Reaction :=
  {| r_name := r_name r; reactants := reactants r ++ [sr]; products := products r;
     kineticLaw := kineticLaw r; reversible := reversible r; fast := fast r |}.

Definition Reaction_addProduct (r : Reaction) (sr : SpeciesReference) : Reaction :=
  {| r_name := r_name r; reactants := reactants r; products := products r ++ [sr];
     kineticLaw := kineticLaw r; reversible := reversible r; fast := fast r |}.

(** *** From nodes to elements *)

(** An attribute that is written when it is set. *)
Definition when_set (name : string) (value : option string) : list (string * string) :=
  match value with
  | Some v => [(name, v)]
  | None => []
  end.

(** An integer attribute that is written when it is not its default. *)
Definition unless_default (name : string) (value default : Z) : list (string * string) :=
  if decide (value = default) then [] else [(name, pretty value)].

(** A boolean attribute that is written when it is not its default. *)
Definition unless_default_bool (name : string) (value default : bool)
  : list (string * string) :=
  if decide (value = default) then []
  else [(name, if value then "true" else "false")].

(** The wrapper around a list of children: absent for an empty list. *)
Definition list_of (name : string) (children : list XMLNode) : list XMLNode :=
  match children with
  | [] => []
  | _ :: _ => [XMLElement name [] children]
  end.

(** Modelled from the spec: the element written for a unit (the formatter
    is not among the sources); exponent 1 and scale 0 are defaults. *)
Definition Unit_element (u : Unit) : XMLNode :=
  XMLElement "unit"
    ([("kind", UnitKind_toString (kind u))]
     ++ unless_default "exponent" (exponent u) 1
     ++ unless_default "scale" (scale u) 0)
    [].

(** Modelled from the spec: the element written for a unit definition (the
    formatter is not among the sources); its units go into one list
    wrapper, which is left out when there is no unit. *)
Definition UnitDefinition_element (ud : UnitDefinition) : XMLNode :=
  XMLElement "unitDefinition"
    (when_set "name" (ud_name ud))
    (list_of "listOfUnits" (Unit_element <$> units ud)).

(** Modelled from the spec: the element written for a species reference
    (the formatter is not among the sources); stoichiometry 1 and
    denominator 1 are defaults, and the names depend on the revision. *)
Definition SpeciesReference_element (r : Revision) (sr : SpeciesReference) : XMLNode :=
  XMLElement (if isL1v1 r then "specieReference" else "speciesReference")
    (when_set (if isL1v1 r then "specie" else "species") (species sr)
     ++ unless_default "stoichiometry" (stoichiometry sr) 1
     ++ unless_default "denominator" (denominator sr) 1)
    [].

(** Modelled from the spec: the element written for a parameter (the
    formatter is not among the sources). *)
Definition Parameter_element (p : Parameter_t) : XMLNode :=
  XMLElement "parameter"
    (when_set "name" (p_name p) ++ when_set "value" (p_value p)
     ++ when_set "units" (p_units p))
    [].

(** Modelled from the spec: the element written for a kinetic law (the
    formatter is not among the sources); the unit attributes are written
    when they are set. *)
Definition KineticLaw_element (kl : KineticLaw) : XMLNode :=
  XMLElement "kineticLaw"
    (when_set "formula" (formula kl) ++ when_set "timeUnits" (timeUnits kl)
     ++ when_set "substanceUnits" (substanceUnits kl))
    (list_of "listOfParameters" (Parameter_element <$> parameters kl)).

(** Modelled from the spec: the element written for a reaction (the
    formatter is not among the sources); reversible true and fast false
    are defaults; reactants and products each go into a list wrapper that
    is left out when empty, followed by the kinetic law when there is
    one. *)
Definition Reaction_element (r : Revision) (rn : Reaction) : XMLNode :=
  XMLElement "reaction"
    (when_set "name" (r_name rn)
     ++ unless_default_bool "reversible" (reversible rn) true
     ++ unless_default_bool "fast" (fast rn) false)
    (list_of "listOfReactants" (SpeciesReference_element r <$> reactants rn)
     ++ list_of "listOfProducts" (SpeciesReference_element r <$> products rn)
     ++ from_option (λ kl, [KineticLaw_element kl]) [] (kineticLaw rn)).

(** *** From elements to text *)

Definition quote : string := String (Ascii.ascii_of_nat 34) "".
Definition newline : string := String (Ascii.ascii_of_nat 10) "".

Fixpoint indentation (depth : nat) : string :=
  match depth with
  | O => ""
  | S depth => "  " +:+ indentation depth
  end.

Definition concat_strings (l : list string) : string := foldr String.append "" l.

Definition render_attribute (a : string * string) : string :=
  " " +:+ a.1 +:+ "=" +:+ quote +:+ a.2 +:+ quote.

(** Modelled from the spec: the markup of an element (the writer is not
    among the sources), indented by two spaces a level as in the expected
    strings of the tests. *)
Fixpoint render (depth : nat) (n : XMLNode) : string :=
  match n with
  | XMLElement name attributes children =>
      let start := indentation depth +:+ "<" +:+ name
                   +:+ concat_strings (render_attribute <$> attributes) in
      match children with
      | [] => start +:+ "/>" +:+ newline
      | _ :: _ =>
          start +:+ ">" +:+ newline
          +:+ concat_strings (map (render (S depth)) children)
          +:+ indentation depth +:+ "</" +:+ name +:+ ">" +:+ newline
      end
  end.

(** The text of a string written with ' for the quotation mark. *)
Fixpoint requote (s : string) : string :=
  match s with
  | EmptyString => EmptyString
  | String c s =>
      String (if Ascii.eqb c "'"%char then Ascii.ascii_of_nat 34 else c) (requote s)
  end.

(** The lines of a text, each ended by a newline. *)
Definition text (lines : list string) : string :=
  concat_strings ((λ l, requote l +:+ newline) <$> lines).

Definition XML_HEADER : string := text ["<?xml version='1.0' encoding='UTF-8'?>"].

(** Modelled from the spec: [*formatter << node] (the formatter is not
    among the sources) writes the XML declaration, then the element. *)
Definition write (n : XMLNode) : string := XML_HEADER +:+ render 0 n.

(** *** The two scenarios *)

Definition mmls : UnitDefinition :=
  let ud := UnitDefinition_createWith "mmls" in
  let ud := UnitDefinition_addUnit ud (Unit_createWith UNIT_KIND_MOLE 1 (-3)) in
  let ud := UnitDefinition_addUnit ud (Unit_createWith UNIT_KIND_LITER (-1) 0) in
  UnitDefinition_addUnit ud (Unit_createWith UNIT_KIND_SECOND (-1) 0).

Definition mmls_expected : string :=
  text [ "<?xml version='1.0' encoding='UTF-8'?>";
         "<unitDefinition name='mmls'>";
         "  <listOfUnits>";
         "    <unit kind='mole' scale='-3'/>";
         "    <unit kind='liter' exponent='-1'/>";
         "    <unit kind='second' exponent='-1'/>";
         "  </listOfUnits>";
         "</unitDefinition>" ].

Definition v1 : Reaction :=
  let kl := KineticLaw_create in
  let kl := KineticLaw_setFormula kl "(vm * s1)/(km + s1)" in
  let r := Reaction_createWith "v1" (Some kl) true false in
  let r := Reaction_addReactant r (SpeciesReference_createWith "x0" 1 1) in
  Reaction_addProduct r (SpeciesReference_createWith "s1" 1 1).

Definition v1_expected : string :=
  text [ "<?xml version='1.0' encoding='UTF-8'?>";
         "<reaction name='v1'>";
         "  <listOfReactants>";
         "    <speciesReference species='x0'/>";
         "  </listOfReactants>";
         "  <listOfProducts>";
         "    <speciesReference species='s1'/>";
         "  </listOfProducts>";
         "  <kineticLaw formula='(vm * s1)/(km + s1)'/>";
         "</reaction>" ].

End Formatter.

(* --------------------------------------------------------------------- *)
(** ** Concrete collaborators                                             *)
(* --------------------------------------------------------------------- *)

(** Small instances of the parameters, on which the definitions above can
    be run. *)
Module Samples.
Import ErrorLog Document.

(** A model is its id and its metaid; it has no elements below it. *)
Definition collaborators : Collaborators :=
  {| Model := string * string;
     Plugin := unit;
     Element := string;
     SBMLValidator := N * list SBMLError;
     Model_getId := fst;
     Model_getMetaId := snd;
     Model_getElementBySId := λ _ _, None;
     Model_getElementByMetaId := λ _ _, None;
     getElementFromPluginsBySId := λ _ _, None;
     getElementFromPluginsByMetaId := λ _ _, None;
     Model_enablePackageInternal := λ _ _ _ m, m;
     SBase_enablePackageInternal := λ _ _ _ ps, ps |}.

#[local] Existing Instance collaborators.

(** A table with one unit-consistency code, 10521 (units of an initial
    assignment): initial assignments do not exist before Level 2
    Version 2, where a mismatch is an error; from Level 2 Version 4 on it
    is a warning.  The strict-units codes are errors everywhere. *)
Definition severity_table : SeverityTable := λ errorId level version,
  match errorId with
  | ErrorCode 10521 =>
      if decide (level = 2 ∧ (version = 2 ∨ version = 3))%N then LIBSBML_SEV_ERROR
      else if decide (level = 1 ∨ (level = 2 ∧ version = 1))%N
           then LIBSBML_SEV_OTHER 0
           else LIBSBML_SEV_WARNING
  | ErrorCode _ => LIBSBML_SEV_WARNING
  | _ => LIBSBML_SEV_ERROR
  end.

Definition empty_log : SBMLErrorLog :=
  {| mErrors := []; mOverriddenSeverity := LIBSBML_OVERRIDE_DISABLED |}.

Definition document (level version : N) (model : option Model)
  (unknown : XMLAttributes.t) : SBMLDocument :=
  {| mMetaId := "doc"; mPlugins := []; mLevel := level; mVersion := version;
     mModel := model; mLocationURI := "";
     mErrorLog := empty_log; mValidators := [];
     mApplicableValidators := 127; mConversionValidators := 127;
     mRequiredAttrOfUnknownPkg := unknown;
     mRequiredAttrOfUnknownDisabledPkg := [];
     mPkgUseDefaultNSMap := ∅ |}.

(** Validators of a Level 3 document whose only defect is an initial
    assignment with mismatched units: the internal validator finds
    nothing, the unit validators report the one failure. *)
Definition unit_failure : SBMLError :=
  SBMLError_create (table := severity_table) (ErrorCode 10521) 3 1.

Definition validators : Validators :=
  {| InternalValidator_checkConsistency := λ d, (0%N, mErrorLog d);
     InternalValidator_setConsistencyChecks := λ _ _ mask, mask;
     InternalValidator_checkL1Compatibility := λ d, (0%N, mErrorLog d);
     InternalValidator_checkL2v1Compatibility := λ d, (0%N, mErrorLog d);
     InternalValidator_checkL2v2Compatibility := λ d, (0%N, mErrorLog d);
     InternalValidator_checkL2v3Compatibility := λ d, (0%N, mErrorLog d);
     DocumentPlugin_checkConsistency := λ _ d, (0%N, mErrorLog d);
     SBMLValidator_validate := λ v _, v;
     UnitConsistencyValidator_validate := λ _, (1%N, [unit_failure]);
     StrictUnitConsistencyValidator_validate := λ _, (1%N, [unit_failure]) |}.

(** A registry in which nothing is registered. *)
Definition empty_registry : ConverterRegistry :=
  {| ConversionProperties := list (string * string);
     SBMLConverter := Empty_set;
     getConverterFor := λ _, None;
     converter_convert := λ c _ _, match c with end |}.

(** Two unknown packages, each with its "required" attribute. *)
Definition two_unknown_packages : XMLAttributes.t :=
  [ {| XMLAttributes.attr_name := "required"; XMLAttributes.attr_value := "true";
       XMLAttributes.attr_uri := "http://www.sbml.org/sbml/level3/version1/foo/version1";
       XMLAttributes.attr_prefix := "foo" |};
    {| XMLAttributes.attr_name := "required"; XMLAttributes.attr_value := "false";
       XMLAttributes.attr_uri := "http://www.sbml.org/sbml/level3/version1/bar/version1";
       XMLAttributes.attr_prefix := "bar" |} ].

Definition foo_uri : string :=
  "http://www.sbml.org/sbml/level3/version1/foo/version1".

Definition foo_required : XMLAttributes.XMLAttribute :=
  {| XMLAttributes.attr_name := "required"; XMLAttributes.attr_value := "true";
     XMLAttributes.attr_uri := foo_uri; XMLAttributes.attr_prefix := "foo" |}.

Definition bar_required : XMLAttributes.XMLAttribute :=
  {| XMLAttributes.attr_name := "required"; XMLAttributes.attr_value := "false";
     XMLAttributes.attr_uri := "http://www.sbml.org/sbml/level3/version1/bar/version1";
     XMLAttributes.attr_prefix := "bar" |}.

(** A Level 3 Version 1 document with a model and no packages, and one
    that declares the two unknown packages. *)
Definition plain_document : SBMLDocument :=
  document 3 1 (Some ("m", "meta")) [].

Definition packages_document : SBMLDocument :=
  document 3 1 (Some ("m", "meta")) two_unknown_packages.

(** Disabling, then enabling a package again. *)
Definition disable_enable (pkgURI pkgPrefix : string) (d : SBMLDocument)
  : SBMLDocument :=
  enablePackageInternal pkgURI pkgPrefix true
    (enablePackageInternal pkgURI pkgPrefix false d).

End Samples.

(* --------------------------------------------------------------------- *)
(** ** UniqueSpatialIds.cpp: vocabulary for whole runs                    *)
(* --------------------------------------------------------------------- *)

Module UniqueSpatialIdsRuns.
Import UniqueSpatialIds.

(** The ids that a sequence of objects presents, in checking order: the
    id of every object whose id is set. *)
Definition presented_ids (objects : list SBase) : list string :=
  getId <$> filter (λ o, isSetId o = true) objects.

(** The number of different ids among them. *)
Definition distinct_ids (objects : list SBase) : nat :=
  size (list_to_set (presented_ids objects) : gset string).

(** The failures that a fresh constraint logs on a model. *)
Definition run (m : Model) : list (SBase * string) :=
  failures (doCheck m create).

(** A conflict between two objects of a sequence of checked objects: the
    failure is on the object at a position [j], and names the object at
    an earlier position [i] that is the first of the sequence to present
    the same id; both have their id set.  It is worded by
    [conflict_text]. *)
Definition conflict_within (objects : list SBase) (failure : SBase * string) : Prop :=
  ∃ (i j : nat) (previous : SBase),
    i < j
    ∧ objects !! i = Some previous ∧ objects !! j = Some failure.1
    ∧ isSetId previous = true ∧ isSetId failure.1 = true
    ∧ getId previous = getId failure.1
    ∧ (∀ k earlier, k < i → objects !! k = Some earlier →
         ¬ (isSetId earlier = true ∧ getId earlier = getId failure.1))
    ∧ failure.2 = conflict_text (getElementName failure.1)
                    (getElementName previous) (getId failure.1)
                    (getLine previous).

End UniqueSpatialIdsRuns.

(* --------------------------------------------------------------------- *)
(** ** SBMLDocument.cpp, continued                                        *)
(* --------------------------------------------------------------------- *)

Module DocumentMore.
Import ErrorLog Document.

#[global] Instance OperationReturnValues_eq_dec : EqDecision OperationReturnValues_t.
Proof. solve_decision. Defined.

Section WithCollaborators.
Context {collaborators : Collaborators}.

Definition set_mValidators (v : list SBMLValidator) (d : SBMLDocument)
  : SBMLDocument :=
  {| mMetaId := mMetaId d; mPlugins := mPlugins d; mLevel := mLevel d;
     mVersion := mVersion d; mModel := mModel d;
     mLocationURI := mLocationURI d; mErrorLog := mErrorLog d;
     mValidators := v;
     mApplicableValidators := mApplicableValidators d;
     mConversionValidators := mConversionValidators d;
     mRequiredAttrOfUnknownPkg := mRequiredAttrOfUnknownPkg d;
     mRequiredAttrOfUnknownDisabledPkg := mRequiredAttrOfUnknownDisabledPkg d;
     mPkgUseDefaultNSMap := mPkgUseDefaultNSMap d |}.

(** *** The list of attached validators *)

(** [(unsigned int) mValidators.size()] *)
Definition getNumValidators (d : SBMLDocument) : N :=
  (N.of_nat (length (mValidators d)) `mod` UINT_MODULUS)%N.

Definition clearValidators (d : SBMLDocument)
  : OperationReturnValues_t * SBMLDocument :=
  (LIBSBML_OPERATION_SUCCESS, set_mValidators [] d).

(** [mValidators.push_back(validator->clone())]; a validator is a value
    here, so the clone is the validator. *)
Definition addValidator (validator : SBMLValidator) (d : SBMLDocument)
  : OperationReturnValues_t * SBMLDocument :=
  (LIBSBML_OPERATION_SUCCESS, set_mValidators (mValidators d ++ [validator]) d).

(** The loop of [getValidator]: [count] is compared with [index] at every
    element and is not changed by the loop. *)
Fixpoint getValidator_loop (count index : N) (it : list SBMLValidator)
  : option SBMLValidator :=
  match it with
  | [] => None
  | v :: it => if decide (count = index) then Some v
               else getValidator_loop count index it
  end.

Definition getValidator (index : N) (d : SBMLDocument) : option SBMLValidator :=
  if decide (getNumValidators d ≤ index)%N then None
  else getValidator_loop 0 index (mValidators d).

(** *** The model as a child object *)

Definition isSetModel (d : SBMLDocument) : bool :=
  bool_decide (mModel d ≠ None).

Definition getModel (d : SBMLDocument) : option Model := mModel d.

Definition getNumObjects (elementName : string) (d : SBMLDocument) : N :=
  if decide (elementName = "model" ∧ isSetModel d = true) then 1%N else 0%N.

Definition getObject (elementName : string) (index : N) (d : SBMLDocument)
  : option Model :=
  if decide (elementName = "model") then getModel d else None.

(** *** More checks *)

(** The check of the internal validator that [checkInternalConsistency]
    calls; like its other checks it logs into the document's error log and
    returns its count. *)
Class InternalChecks := {
  InternalValidator_checkInternalConsistency : SBMLDocument → N * SBMLErrorLog
}.

Definition checkInternalConsistency {checks : InternalChecks} (d : SBMLDocument)
  : N * SBMLDocument :=
  let overrideStatus := getSeverityOverride (getErrorLog d) in
  let d := set_mErrorLog
             (setSeverityOverride LIBSBML_OVERRIDE_DISABLED (getErrorLog d)) d in
  let '(numErrors, log) := InternalValidator_checkInternalConsistency d in
  let d := set_mErrorLog log d in
  let d := set_mErrorLog (setSeverityOverride overrideStatus (getErrorLog d)) d in
  (numErrors, d).

(** [validateSBML], statement by statement. *)
Definition validateSBML {validators : Validators} (d : SBMLDocument)
  : N * SBMLDocument :=
  let overrideStatus := getSeverityOverride (getErrorLog d) in
  let d := set_mErrorLog
             (setSeverityOverride LIBSBML_OVERRIDE_DISABLED (getErrorLog d)) d in
  let '(numErrors, log) := InternalValidator_checkConsistency d in
  let d := set_mErrorLog log d in
  let '(numErrors, d) := check_plugins numErrors d in
  let '(numErrors, d) := run_validators numErrors d in
  let d := set_mErrorLog (setSeverityOverride overrideStatus (getErrorLog d)) d in
  (numErrors, d).

(** What one of the four compatibility checks with a unit pass adds to the
    log: the strict-units record of its target, made for the level and
    version of the document, when it is not called from a conversion, the
    unit validator reports failures and one of them would be an error at
    the level and version the check consults. *)
Definition strict_units_record {validators : Validators} {table : SeverityTable}
  (consulted_level consulted_version : N) (code : SBMLErrorCode_t)
  (inConversion : bool) (after_internal : SBMLDocument) : list SBMLError :=
  let unit := UnitConsistencyValidator_validate after_internal in
  if decide (inConversion = false ∧ (0 < unit.1)%N
             ∧ some_error_at consulted_level consulted_version unit.2)
  then [overridden (getSeverityOverride (getErrorLog after_internal))
          (SBMLError_create code (mLevel after_internal) (mVersion after_internal))]
  else [].

(** *** Conversions by name *)

(** How [SBMLDocument.cpp] builds conversion properties
    ([ConversionProperties], not among the sources): from the namespaces
    of a level and version, or from those of the document, followed by
    [addOption(key, value, description)]. *)
Class ConversionOptions {registry : ConverterRegistry} := {
  ConversionProperties_forLevelVersion : N → N → ConversionProperties;
  ConversionProperties_forDocument     : SBMLDocument → ConversionProperties;
  addOption : string → bool → string → ConversionProperties → ConversionProperties
}.

Section WithRegistry.
Context {registry : ConverterRegistry} {options : ConversionOptions}.

Definition expandFunctionDefinitions (d : SBMLDocument) : bool * SBMLDocument :=
  let prop := ConversionProperties_forDocument d in
  let prop := addOption "expandFunctionDefinitions" true
                "expand function definitions" prop in
  let '(result, d) := convert prop d in
  if decide (result = LIBSBML_OPERATION_SUCCESS) then (true, d) else (false, d).

Definition expandInitialAssignments (d : SBMLDocument) : bool * SBMLDocument :=
  let prop := ConversionProperties_forDocument d in
  let prop := addOption "expandInitialAssignments" true
                "expand initial assignments" prop in
  let '(result, d) := convert prop d in
  if decide (result = LIBSBML_OPERATION_SUCCESS) then (true, d) else (false, d).

Definition setLevelAndVersion (level version : N) (strict ignorePackages : bool)
  (d : SBMLDocument) : bool * SBMLDocument :=
  let prop := ConversionProperties_forLevelVersion level version in
  let prop := addOption "strict" strict "should validity be preserved" prop in
  let prop := addOption "setLevelAndVersion" true
                "convert the document to the given level and version" prop in
  let prop := addOption "ignorePackages" ignorePackages "" prop in
  let '(result, d) := convert prop d in
  if decide (result = LIBSBML_OPERATION_SUCCESS) then (true, d) else (false, d).

End WithRegistry.

(** *** Packages and their "required" attribute *)

(** What the package functions ask of a plugin and of the extension
    registry, neither of which is among the sources: the URI of a plugin,
    the name of the extension registered for a URI
    ([getExtensionInternal(uri)], none when it returns NULL), the
    "required" flag of a document plugin, and whether a package URI is
    enabled on the document ([SBase::isPackageURIEnabled]). *)
Class PluginOps := {
  Plugin_getURI       : Plugin → string;
  Extension_getName   : string → option string;
  Plugin_setRequired  : bool → Plugin → OperationReturnValues_t * Plugin;
  Plugin_getRequired  : Plugin → bool;
  isPackageURIEnabled : string → list Plugin → bool
}.

Section WithPlugins.
Context {plugin_ops : PluginOps}.

(** [(uri == package) || (sbext && (sbext->getName() == package))] *)
Definition names_package (package : string) (p : Plugin) : Prop :=
  Plugin_getURI p = package ∨ Extension_getName (Plugin_getURI p) = Some package.

#[global] Instance names_package_dec package p : Decision (names_package package p).
Proof. unfold names_package. apply _. Defined.

(** The loop of [enableDefaultNS] and [isEnabledDefaultNS]: it runs over
    all plugins and keeps the URI of the last one that names the package. *)
Definition last_package_uri (package : string) (plugins : list Plugin) : string :=
  foldl (λ pkgURI p, if decide (names_package package p)
                     then Plugin_getURI p else pkgURI) "" plugins.


Definition isEnabledDefaultNS (package : string) (d : SBMLDocument) : bool :=
  let pkgURI := last_package_uri package (mPlugins d) in
  match mPkgUseDefaultNSMap d !! pkgURI with
  | Some flag => flag
  | None => false
  end.

(** [XMLAttributes::getPrefix(int)] at the index [getIndex] returned. *)
Definition prefix_at (index : option nat) (attrs : XMLAttributes.t) : string :=
  match index with
  | Some i => from_option XMLAttributes.attr_prefix "" (attrs !! i)
  | None => ""
  end.

Definition bool_text (flag : bool) : string := if flag then "true" else "false".

Definition setPackageRequired (package : string) (flag : bool) (d : SBMLDocument)
  : OperationReturnValues_t * SBMLDocument :=
  match list_find (names_package package) (mPlugins d) with
  | Some (i, p) =>
      let '(result, p) := Plugin_setRequired flag p in
      (result, set_mPlugins (<[i := p]> (mPlugins d)) d)
  | None =>
      let attrs := mRequiredAttrOfUnknownPkg d in
      if decide (XMLAttributes.getValue "required" package attrs ≠ "") then
        let index := XMLAttributes.getIndex "required" package attrs in
        let prefix := prefix_at index attrs in
        let value := bool_text flag in
        (LIBSBML_OPERATION_SUCCESS,
         set_unknownPkg (XMLAttributes.add "required" value package prefix attrs)
           (mRequiredAttrOfUnknownDisabledPkg d) (mPkgUseDefaultNSMap d) d)
      else (LIBSBML_PKG_UNKNOWN_VERSION, d)
  end.

Definition addUnknownPackageRequired (pkgURI prefix : string) (flag : bool)
  (d : SBMLDocument) : OperationReturnValues_t * SBMLDocument :=
  let value := bool_text flag in
  (LIBSBML_OPERATION_SUCCESS,
   set_unknownPkg
     (XMLAttributes.add "required" value pkgURI prefix (mRequiredAttrOfUnknownPkg d))
     (mRequiredAttrOfUnknownDisabledPkg d) (mPkgUseDefaultNSMap d) d).

Definition setPkgRequired (package : string) (flag : bool) (d : SBMLDocument)
  : OperationReturnValues_t * SBMLDocument :=
  setPackageRequired package flag d.

Definition getPackageRequired (package : string) (d : SBMLDocument) : bool :=
  match list_find (names_package package) (mPlugins d) with
  | Some (_, p) => Plugin_getRequired p
  | None =>
      let req := XMLAttributes.getValue "required" package
                   (mRequiredAttrOfUnknownPkg d) in
      if decide (req = "true") then true else false
  end.

Definition getPkgRequired (package : string) (d : SBMLDocument) : bool :=
  getPackageRequired package d.

Definition isSetPackageRequired (package : string) (d : SBMLDocument) : bool :=
  match list_find (names_package package) (mPlugins d) with
  | Some _ => true
  | None =>
      let req := XMLAttributes.getValue "required" package
                   (mRequiredAttrOfUnknownPkg d) in
      if decide (req ≠ "") then true else false
  end.

Definition isSetPkgRequired (package : string) (d : SBMLDocument) : bool :=
  isSetPackageRequired package d.

Definition isIgnoredPackage (pkgURI : string) (d : SBMLDocument) : bool :=
  if isSetPackageRequired pkgURI d && negb (isPackageURIEnabled pkgURI (mPlugins d))
  then true else false.

Definition isIgnoredPkg (pkgURI : string) (d : SBMLDocument) : bool :=
  isIgnoredPackage pkgURI d.

Definition isDisabledIgnoredPackage (pkgURI : string) (d : SBMLDocument) : bool :=
  if negb (isPackageURIEnabled pkgURI (mPlugins d)) then
    let req := XMLAttributes.getValue "required" pkgURI
                 (mRequiredAttrOfUnknownDisabledPkg d) in
    if decide (req ≠ "") then true else false
  else false.

End WithPlugins.

Definition hasUnknownPackage (pkgURI : string) (d : SBMLDocument) : bool :=
  let req := XMLAttributes.getValue "required" pkgURI (mRequiredAttrOfUnknownPkg d) in
  bool_decide (req ≠ "").

(** [int count], one more for every attribute named "required". *)
Definition getNumUnknownPackages (d : SBMLDocument) : Z :=
  foldl (λ count a, if decide (XMLAttributes.attr_name a = "required")
                    then (count + 1)%Z else count)
        0%Z (mRequiredAttrOfUnknownPkg d).

(** The loop shared by [getUnknownPackageURI] and [getUnknownPackagePrefix]:
    [i] runs over the positions of the table, attributes with another name
    are passed over, and the position is compared with [index]. *)
Fixpoint unknown_package_loop (field : XMLAttributes.XMLAttribute → string)
  (index i : Z) (rest : XMLAttributes.t) : string :=
  match rest with
  | [] => ""
  | a :: rest =>
      if decide (XMLAttributes.attr_name a ≠ "required")
      then unknown_package_loop field index (i + 1)%Z rest
      else if decide (i = index) then field a
           else unknown_package_loop field index (i + 1)%Z rest
  end.

Definition getUnknownPackageURI (index : Z) (d : SBMLDocument) : string :=
  unknown_package_loop XMLAttributes.attr_uri index 0 (mRequiredAttrOfUnknownPkg d).

Definition getUnknownPackagePrefix (index : Z) (d : SBMLDocument) : string :=
  unknown_package_loop XMLAttributes.attr_prefix index 0 (mRequiredAttrOfUnknownPkg d).

End WithCollaborators.

End DocumentMore.

(* --------------------------------------------------------------------- *)
(** ** More concrete collaborators                                        *)
(* --------------------------------------------------------------------- *)

Module MoreSamples.
Import ErrorLog Document DocumentMore.

#[local] Existing Instance Samples.collaborators.
#[local] Existing Instance Samples.empty_registry.

(** Properties are lists of options; a level and version come first. *)
Definition options : ConversionOptions :=
  {| ConversionProperties_forLevelVersion := λ level version,
       [("level", pretty level); ("version", pretty version)];
     ConversionProperties_forDocument := λ d,
       [("level", pretty (mLevel d)); ("version", pretty (mVersion d))];
     addOption := λ key value _ props, props ++ [(key, bool_text value)] |}.

(** The plugins of the samples name no package. *)
Definition plugin_ops : PluginOps :=
  {| Plugin_getURI := λ _, "";
     Extension_getName := λ _, None;
     Plugin_setRequired := λ _ p, (LIBSBML_OPERATION_SUCCESS, p);
     Plugin_getRequired := λ _, false;
     isPackageURIEnabled := λ _ _, false |}.

(** The sample document with two unknown packages after "foo" was
    disabled. *)
Definition foo_disabled : SBMLDocument :=
  enablePackageInternal Samples.foo_uri "foo" false Samples.packages_document.

End MoreSamples.

(* ===================================================================== *)
(** * Part II.  Properties                                                *)
(* ===================================================================== *)

(** ** Strings *)

Lemma string_app_assoc (s1 s2 s3 : string) :
  (s1 +:+ s2) +:+ s3 = s1 +:+ (s2 +:+ s3).
Proof.
  induction s1 as [|a s1 IH]; [done|].
  change (String a ((s1 +:+ s2) +:+ s3) = String a (s1 +:+ (s2 +:+ s3))).
  by f_equal.
Qed.

(** ** The duplicate-identifier constraint *)

Section UniqueSpatialIdsFacts.
Import UniqueSpatialIds.

Example sample_run :
  snd <$> failures (doCheck sample_model create) =
  [ "  The <boundaryMin> id 'x' conflicts with the previously defined <coordinateComponent> id 'x' at line 5.";
    "  The <domainType> id 'd1' conflicts with the previously defined <adjacentDomains> id 'd1' at line 4.";
    "  The <compartmentMapping> id 'g' conflicts with the previously defined <geometry> id 'g' at line 3." ].
Proof. vm_compute. reflexivity. Qed.

Lemma doCheckId_cases (o : SBase) (c : t) :
  doCheckId o c =
  if isSetId o then
    match mIdMap c !! getId o with
    | Some previous =>
        {| mIdMap := mIdMap c;
           failures := failures c ++
             [(o, conflict_text (getElementName o) (getElementName previous)
                    (getId o) (getLine previous))] |}
    | None => {| mIdMap := <[getId o := o]> (mIdMap c); failures := failures c |}
    end
  else c.
Proof.
  unfold doCheckId, map_insert.
  destruct (isSetId o); [|done].
  destruct (mIdMap c !! getId o) as [previous|] eqn:Hlook; simpl; [|done].
  unfold logIdConflict, logFailure, getMessage, conflict_text; simpl.
  rewrite Hlook. do 2 f_equal. f_equal. f_equal.
  destruct (decide (getLine previous ≠ 0%N)), (decide (getLine previous = 0%N));
    try done.
  - by rewrite !string_app_assoc.
  - by rewrite !string_app_assoc.
Qed.

(** A run started on an empty scratch map records, for every id, the
    first object that presented it. *)
Lemma mIdMap_doCheckIds (seen : list SBase) (c : t) (id : string) :
  mIdMap (doCheckIds seen c) !! id =
  match mIdMap c !! id with
  | Some p => Some p
  | None   => first_with_id id seen
  end.
Proof.
  revert c. induction seen as [|o seen IH]; intros c.
  - simpl. by destruct (mIdMap c !! id).
  - unfold doCheckIds in *. simpl. rewrite IH, doCheckId_cases.
    unfold first_with_id. simpl.
    destruct (isSetId o) eqn:Hset.
    + destruct (mIdMap c !! getId o) as [previous|] eqn:Hlook; simpl.
      * destruct (mIdMap c !! id) eqn:Hid; [done|].
        case_decide as Hp; [|by destruct (list_find _ seen) as [[??]|]].
        destruct Hp as [_ <-]. congruence.
      * destruct (decide (getId o = id)) as [<-|Hne].
        -- rewrite lookup_insert_eq, Hlook. by rewrite decide_True.
        -- rewrite lookup_insert_ne by done.
           destruct (mIdMap c !! id); [done|].
           rewrite decide_False by tauto.
           by destruct (list_find _ seen) as [[??]|].
    + destruct (mIdMap c !! id); [done|].
      rewrite decide_False by (intros [? _]; congruence).
      by destruct (list_find _ seen) as [[??]|].
Qed.

Lemma doCheckIds_app (l1 l2 : list SBase) (c : t) :
  doCheckIds (l1 ++ l2) c = doCheckIds l2 (doCheckIds l1 c).
Proof. unfold doCheckIds. apply foldl_app. Qed.

(** [doCheck] is one pass of [doCheckId] over [checked_objects], followed
    by [reset]. *)
Lemma doCheckCoordinateComponents_objects (ccs : list CoordinateComponent) (c : t) :
  foldl (λ c cc, doCheckCoordinateComponent cc c) c ccs
  = doCheckIds (ccs ≫= coordinate_component_objects) c.
Proof.
  revert c. induction ccs as [|cc ccs IH]; intros c; [done|].
  change ((cc :: ccs) ≫= coordinate_component_objects)
    with (coordinate_component_objects cc
          ++ (ccs ≫= coordinate_component_objects)).
  rewrite doCheckIds_app. simpl. by rewrite IH.
Qed.

Lemma doCheckCompartments_objects (cms : list (option SBase)) (c : t) :
  foldl (λ c cm, doCheckCompartment cm c) c cms = doCheckIds (omap id cms) c.
Proof. revert c. induction cms as [|[cm|] cms IH]; intros c; simpl; auto. Qed.

Lemma doCheckGeometry_objects (g : Geometry) (c : t) :
  doCheckGeometry g c = doCheckIds (geometry_objects g) c.
Proof.
  unfold doCheckGeometry, geometry_objects.
  rewrite doCheckCoordinateComponents_objects.
  change (g_object g :: ?l) with ([g_object g] ++ l).
  by rewrite !doCheckIds_app.
Qed.

Lemma doCheck_objects (m : Model) (c : t) :
  doCheck m c = reset (doCheckIds (checked_objects m) c).
Proof.
  unfold doCheck, checked_objects.
  rewrite doCheckIds_app, doCheckCompartments_objects.
  destruct (getGeometry m) as [g|]; simpl; [|done].
  by rewrite doCheckGeometry_objects.
Qed.

(** Earlier entries of the log play no part in a check. *)
Lemma doCheckId_with_earlier pre (o : SBase) (c : t) :
  doCheckId o (with_earlier pre c) = with_earlier pre (doCheckId o c).
Proof.
  rewrite !doCheckId_cases. unfold with_earlier; simpl.
  destruct (isSetId o); [|done].
  destruct (mIdMap c !! getId o); simpl; [|done].
  by rewrite (assoc_L (++)).
Qed.

Lemma doCheckIds_with_earlier pre (objects : list SBase) (c : t) :
  doCheckIds objects (with_earlier pre c)
  = with_earlier pre (doCheckIds objects c).
Proof.
  revert c. induction objects as [|o objects IH]; intros c; [done|].
  unfold doCheckIds in *. simpl. by rewrite doCheckId_with_earlier, IH.
Qed.

Lemma doCheck_with_earlier pre (m : Model) (c : t) :
  doCheck m (with_earlier pre c) = with_earlier pre (doCheck m c).
Proof. by rewrite !doCheck_objects, doCheckIds_with_earlier. Qed.

Lemma doCheck_clears_map (m : Model) (c : t) : mIdMap (doCheck m c) = ∅.
Proof. done. Qed.

Lemma first_with_id_Some (id : string) (seen : list SBase) (p : SBase) :
  first_with_id id seen = Some p → p ∈ seen ∧ isSetId p = true ∧ getId p = id.
Proof.
  unfold first_with_id.
  destruct (list_find _ seen) as [[i q]|] eqn:Hfind; [|done].
  intros [= ->]. apply list_find_Some in Hfind as (Hi & [??] & _).
  eauto using list_elem_of_lookup_2.
Qed.

Lemma first_with_id_None (id : string) (seen : list SBase) :
  first_with_id id seen = None →
  ∀ p, p ∈ seen → isSetId p = true → getId p ≠ id.
Proof.
  unfold first_with_id.
  destruct (list_find _ seen) as [[i q]|] eqn:Hfind; [done|].
  intros _ p Hp Hset Hid. apply list_find_None in Hfind.
  rewrite Forall_forall in Hfind. by apply (Hfind p).
Qed.

Lemma first_with_id_app (id : string) (l1 l2 : list SBase) :
  first_with_id id (l1 ++ l2) =
  match first_with_id id l1 with
  | Some p => Some p
  | None   => first_with_id id l2
  end.
Proof.
  unfold first_with_id. induction l1 as [|q l1 IH]; simpl; [done|].
  case_decide; [done|].
  rewrite <-!option_fmap_compose.
  destruct (list_find _ (l1 ++ l2)) as [[??]|], (list_find _ l1) as [[??]|],
    (list_find _ l2) as [[??]|]; simpl in *; congruence.
Qed.

(** C7.  Within one run (a sequence [seen] of objects checked from the
    empty scratch map, then one more object [o]) a conflict is logged for
    [o] exactly when [o] presents an id that an earlier object of the run
    presented; the first object with an id is recorded in the map and logs
    nothing.  The logged text names the element kind of [o], the element
    kind of the first object that had the id, the id itself, and that
    object's line whenever it is not 0. *)
Theorem doCheckId_conflict_exactly_on_seen_id (seen : list SBase) (o : SBase) :
  let c := doCheckIds seen create in
  failures (doCheckId o c) = failures c ++ conflict_of seen o
  ∧ (conflict_of seen o ≠ [] ↔
       isSetId o = true ∧ ∃ p, p ∈ seen ∧ isSetId p = true ∧ getId p = getId o)
  ∧ (∀ msg, (o, msg) ∈ conflict_of seen o →
       ∃ previous, first_with_id (getId o) seen = Some previous ∧
         mIdMap c !! getId o = Some previous ∧
         msg = "  The <" +:+ getElementName o +:+ "> id '" +:+ getId o
               +:+ "' conflicts with the previously defined <"
               +:+ getElementName previous +:+ "> id '" +:+ getId o +:+ "'"
               +:+ (if decide (getLine previous = 0%N) then ""
                    else " at line " +:+ pretty (getLine previous))
               +:+ ".")
  ∧ mIdMap (doCheckId o c) !! getId o
    = (if isSetId o then first_with_id (getId o) (seen ++ [o])
       else first_with_id (getId o) seen).
Proof.
  intros c.
  assert (Hmap : ∀ id, mIdMap c !! id = first_with_id id seen).
  { intros id. unfold c. by rewrite mIdMap_doCheckIds. }
  split_and!.
  - rewrite doCheckId_cases. unfold conflict_of.
    destruct (isSetId o); [|by rewrite (right_id_L [] (++))].
    rewrite Hmap.
    destruct (first_with_id (getId o) seen); simpl; [done|].
    by rewrite (right_id_L [] (++)).
  - unfold conflict_of. destruct (isSetId o); [|by split; [|intros [? _]]].
    destruct (first_with_id (getId o) seen) as [p|] eqn:Hfirst.
    + apply first_with_id_Some in Hfirst. split; [eauto|done].
    + split; [done|]. intros [_ (p & Hp & Hset & Hid)].
      by destruct (first_with_id_None _ _ Hfirst p Hp Hset).
  - intros msg. unfold conflict_of. destruct (isSetId o); [|by intros ?%elem_of_nil].
    destruct (first_with_id (getId o) seen) as [p|] eqn:Hfirst;
      [|by intros ?%elem_of_nil].
    intros [= ->]%list_elem_of_singleton. exists p. by rewrite Hmap.
  - rewrite doCheckId_cases, first_with_id_app.
    destruct (isSetId o) eqn:Hset; [|apply Hmap].
    rewrite Hmap.
    destruct (first_with_id (getId o) seen) as [p|] eqn:Hfirst; simpl.
    + by rewrite Hmap.
    + rewrite lookup_insert_eq. unfold first_with_id; simpl.
      by rewrite decide_True.
Qed.

(** C6.  Two runs of [doCheck] in succession on the same model log the
    same failures: whatever the constraint had logged before ([earlier]),
    a run started with an empty scratch map appends [run], the failures a
    fresh constraint finds, the next run appends [run] again, and every
    run, whatever map it started from, ends with the map empty. *)
Theorem doCheck_twice_same_failures (m : Model) (earlier : list (SBase * string)) :
  let run := failures (doCheck m create) in
  let c0 := with_earlier earlier create in
  let c1 := doCheck m c0 in
  let c2 := doCheck m c1 in
  failures c1 = earlier ++ run
  ∧ failures c2 = (earlier ++ run) ++ run
  ∧ (∀ c, mIdMap (doCheck m c) = ∅).
Proof.
  intros run c0 c1 c2.
  assert (H1 : c1 = with_earlier (earlier ++ run) create).
  { unfold c1, c0. rewrite doCheck_with_earlier.
    unfold with_earlier; simpl. by rewrite (right_id_L [] (++)). }
  split_and!.
  - by rewrite H1; simpl; rewrite (right_id_L [] (++)).
  - unfold c2. rewrite H1, doCheck_with_earlier. done.
  - intros c. apply doCheck_clears_map.
Qed.

End UniqueSpatialIdsFacts.

(** ** The document *)

Section DocumentFacts.
Import ErrorLog Document ConsistencyPass.
Context {collaborators : Collaborators}.

(** *** Conversion *)

(** C2.  When the registry has no converter for the properties, [convert]
    returns the "conversion not available" code, which is not the success
    code, and the document it leaves is the one it was given: level,
    version, model and error log included. *)
Theorem convert_without_converter {registry : ConverterRegistry}
    (props : ConversionProperties) (d : SBMLDocument) :
  getConverterFor props = None →
  convert props d = (LIBSBML_CONV_CONVERSION_NOT_AVAILABLE, d)
  ∧ LIBSBML_CONV_CONVERSION_NOT_AVAILABLE ≠ LIBSBML_OPERATION_SUCCESS
  ∧ mLevel (convert props d).2 = mLevel d
  ∧ mVersion (convert props d).2 = mVersion d
  ∧ mModel (convert props d).2 = mModel d
  ∧ mErrorLog (convert props d).2 = mErrorLog d.
Proof.
  intros Hnone. unfold convert. rewrite Hnone. by split_and!.
Qed.

(** *** Element lookup *)

(** C10.  Both lookups answer none for the empty string, whatever the
    model and the plugins would find; [getElementBySId] never answers the
    document; [getElementByMetaId] answers the document for the document's
    own metaid, when that is not empty. *)
Theorem lookups_empty_string_and_document (d : SBMLDocument) :
  getElementBySId "" d = None
  ∧ getElementByMetaId "" d = None
  ∧ (∀ id, getElementBySId id d ≠ Some ThisDocument)
  ∧ getElementByMetaId (mMetaId d) d
    = (if decide (mMetaId d = "") then None else Some ThisDocument).
Proof.
  split_and!; try done.
  - intros id. unfold getElementBySId.
    repeat (case_decide || case_match); try done;
      by destruct (getElementFromPluginsBySId _ _).
  - unfold getElementByMetaId. case_decide; [done|]. by rewrite decide_True.
Qed.

(** *** The error log *)

Lemma add_list_spec (errors : list SBMLError) (log : SBMLErrorLog) :
  add_list errors log =
  {| mErrors := mErrors log ++ (overridden (mOverriddenSeverity log) <$> errors);
     mOverriddenSeverity := mOverriddenSeverity log |}.
Proof.
  revert log. induction errors as [|e errors IH]; intros log; simpl.
  - rewrite (right_id_L [] (++)). by destruct log.
  - unfold add_list in *. simpl. rewrite IH. simpl.
    by rewrite <-(assoc_L (++)).
Qed.

Lemma with_override_twice o o' (d : SBMLDocument) :
  with_override o (with_override o' d) = with_override o d.
Proof. done. Qed.

Lemma with_override_same (d : SBMLDocument) :
  with_override (getSeverityOverride (getErrorLog d)) d = d.
Proof. by destruct d as [??????[]]. Qed.

(** *** Consistency checks *)

Section ValidationFacts.
Context {validators : Validators}.

(** Both passes with their sequence of assignments folded up. *)
Lemma checkConsistency_unfold (d : SBMLDocument) :
  checkConsistency d =
  let r := run_checks (with_override LIBSBML_OVERRIDE_DISABLED d) in
  (r.1, with_override (getSeverityOverride (getErrorLog d)) r.2).
Proof.
  unfold checkConsistency. fold (with_override LIBSBML_OVERRIDE_DISABLED d).
  by destruct (run_checks _).
Qed.

Lemma checkConsistencyWithStrictUnits_unfold (d : SBMLDocument) :
  checkConsistencyWithStrictUnits d =
  let prior := getSeverityOverride (getErrorLog d) in
  let r := run_checks (setConsistencyChecks LIBSBML_CAT_UNITS_CONSISTENCY false
                         (with_override LIBSBML_OVERRIDE_DISABLED d)) in
  if bool_decide (0 < getNumErrors LIBSBML_SEV_FATAL r.2)%N
     || bool_decide (0 < getNumErrors LIBSBML_SEV_ERROR r.2)%N
  then (r.1, with_override prior r.2)
  else
    let forcing := with_override LIBSBML_OVERRIDE_ERROR r.2 in
    let strict := StrictUnitConsistencyValidator_validate forcing in
    (uint_add r.1 strict.1,
     with_override prior
       (if decide (0 < strict.1)%N
        then set_mErrorLog (add_list strict.2 (getErrorLog forcing)) forcing
        else forcing)).
Proof.
  unfold checkConsistencyWithStrictUnits.
  fold (with_override LIBSBML_OVERRIDE_DISABLED d).
  destruct (run_checks _) as [n d1]; simpl.
  destruct (_ || _); [done|].
  fold (with_override LIBSBML_OVERRIDE_ERROR d1).
  by destruct (StrictUnitConsistencyValidator_validate _).
Qed.

(** The three loops of the code do the specification's steps in the
    specification's order. *)
Lemma check_plugins_in_order (plugins : list Plugin) (n : N) (d : SBMLDocument) :
  foldl (λ '(numErrors, d) p,
           let '(n, log) := DocumentPlugin_checkConsistency p d in
           (uint_add numErrors n, set_mErrorLog log d))
        (n, d) plugins
  = plugins_in_order plugins n d.
Proof.
  revert n d. induction plugins as [|p plugins IH]; intros n d; [done|].
  simpl. destruct (DocumentPlugin_checkConsistency p d) as [k log].
  by rewrite IH.
Qed.

Lemma run_validators_in_order (attached : list SBMLValidator) (n : N)
    (d : SBMLDocument) :
  foldl (λ '(numErrors, d) v,
           let '(newErrors, failures) := SBMLValidator_validate v d in
           if decide (0 < newErrors)%N
           then (uint_add numErrors newErrors,
                 set_mErrorLog (add_list failures (mErrorLog d)) d)
           else (numErrors, d))
        (n, d) attached
  = validators_in_order attached n d.
Proof.
  revert n d. induction attached as [|v attached IH]; intros n d; [done|].
  simpl. destruct (SBMLValidator_validate v d) as [k failures]. simpl.
  destruct (decide (k = 0%N)) as [->|Hk].
  - rewrite decide_False by lia. apply IH.
  - rewrite decide_True by lia. apply IH.
Qed.

Lemma plugins_in_order_validators (plugins : list Plugin) (n : N)
    (d : SBMLDocument) :
  mValidators (plugins_in_order plugins n d).2 = mValidators d.
Proof.
  revert n d. induction plugins as [|p plugins IH]; intros n d; [done|].
  simpl. by rewrite IH.
Qed.

Lemma run_checks_in_order (d : SBMLDocument) :
  run_checks d = pass_in_order d.
Proof.
  unfold run_checks, pass_in_order, check_plugins, run_validators.
  destruct (InternalValidator_checkConsistency d) as [n log]. simpl.
  rewrite check_plugins_in_order.
  assert (Hsame := plugins_in_order_validators (mPlugins d) n (set_mErrorLog log d)).
  destruct (plugins_in_order _ _ _) as [n' d']. simpl in *.
  rewrite Hsame. apply run_validators_in_order.
Qed.

Lemma getNumErrors_positive (severity : XMLErrorSeverity_t) (d : SBMLDocument) :
  (0 < getNumErrors severity d)%N
  ↔ Exists (λ e, getSeverity e = severity) (mErrors (getErrorLog d)).
Proof.
  unfold getNumErrors, getNumFailsWithSeverity.
  generalize (mErrors (getErrorLog d)). intros errors.
  induction errors as [|e errors IH].
  - split; [simpl; lia|by intros ?%Exists_nil].
  - rewrite Exists_cons. destruct (decide (getSeverity e = severity)) as [Heq|Hne].
    + rewrite filter_cons_True by done. simpl. split; [by left|lia].
    + rewrite filter_cons_False by done. rewrite IH. tauto.
Qed.

Lemma serious_errors_test (d : SBMLDocument) :
  bool_decide (0 < getNumErrors LIBSBML_SEV_FATAL d)%N
  || bool_decide (0 < getNumErrors LIBSBML_SEV_ERROR d)%N
  = bool_decide (holds_serious_record (getErrorLog d)).
Proof.
  assert (Hiff : holds_serious_record (getErrorLog d)
                 ↔ (0 < getNumErrors LIBSBML_SEV_FATAL d)%N
                   ∨ (0 < getNumErrors LIBSBML_SEV_ERROR d)%N).
  { unfold holds_serious_record. rewrite !getNumErrors_positive.
    split; [apply Exists_or_inv|apply Exists_or]. }
  destruct (decide (holds_serious_record (getErrorLog d))) as [Hs|Hs].
  - rewrite (bool_decide_eq_true_2 _ Hs). apply orb_true_iff.
    destruct (proj1 Hiff Hs); [left|right]; by apply bool_decide_eq_true.
  - rewrite (bool_decide_eq_false_2 _ Hs). apply orb_false_iff.
    split; apply bool_decide_eq_false; tauto.
Qed.

(** The whole of [checkConsistencyWithStrictUnits] over the steps of the
    specification. *)
Lemma checkConsistencyWithStrictUnits_outcome (d : SBMLDocument) :
  let prior := getSeverityOverride (getErrorLog d) in
  let units_off :=
    set_mApplicableValidators
      (InternalValidator_setConsistencyChecks LIBSBML_CAT_UNITS_CONSISTENCY false
         (mApplicableValidators d)) d in
  let r := pass_in_order (with_override LIBSBML_OVERRIDE_DISABLED units_off) in
  let strict := StrictUnitConsistencyValidator_validate
                  (with_override LIBSBML_OVERRIDE_ERROR r.2) in
  checkConsistencyWithStrictUnits d
  = if decide (holds_serious_record (getErrorLog r.2))
    then (r.1, with_override prior r.2)
    else (((r.1 + strict.1) `mod` 2 ^ 32)%N,
          set_mErrorLog
            {| mErrors := mErrors (getErrorLog r.2)
                          ++ (if decide (strict.1 = 0%N) then []
                              else as_error <$> strict.2);
               mOverriddenSeverity := prior |} r.2).
Proof.
  intros prior units_off r strict.
  rewrite checkConsistencyWithStrictUnits_unfold. fold prior.
  change (setConsistencyChecks LIBSBML_CAT_UNITS_CONSISTENCY false
            (with_override LIBSBML_OVERRIDE_DISABLED d))
    with (with_override LIBSBML_OVERRIDE_DISABLED units_off).
  rewrite run_checks_in_order. fold r. simpl. fold strict.
  rewrite serious_errors_test.
  destruct (decide (holds_serious_record (getErrorLog r.2))) as [Hs|Hs].
  - by rewrite bool_decide_eq_true_2.
  - rewrite bool_decide_eq_false_2 by done. f_equal.
    destruct (decide (strict.1 = 0%N)) as [Hz|Hz].
    + rewrite decide_False by lia. unfold with_override. simpl.
      by rewrite (right_id_L [] (++)).
    + rewrite decide_True by lia. unfold with_override. simpl.
      by rewrite add_list_spec.
Qed.

(** C3.  Each of the two passes returns with the severity override of the
    log at the value it had on entry, on the early return as well, and
    disables the override on entry: the checks of [checkConsistency] are
    the internal validator, the plugins and the attached validators run in
    order on the document with the override disabled, whatever the
    override was, and those of [checkConsistencyWithStrictUnits] are the
    same run on the document with the override disabled and the units
    category off; the log it leaves starts with their records and its
    count is theirs, to which the count of the strict validator is added
    when that one runs. *)
Theorem consistency_checks_scope_override (d : SBMLDocument) :
  let prior := getSeverityOverride (getErrorLog d) in
  let disabled := with_override LIBSBML_OVERRIDE_DISABLED d in
  let units_off :=
    set_mApplicableValidators
      (InternalValidator_setConsistencyChecks LIBSBML_CAT_UNITS_CONSISTENCY false
         (mApplicableValidators d)) disabled in
  let plain := pass_in_order disabled in
  let first := pass_in_order units_off in
  let strict := StrictUnitConsistencyValidator_validate
                  (with_override LIBSBML_OVERRIDE_ERROR first.2) in
  getSeverityOverride (getErrorLog (checkConsistency d).2) = prior
  ∧ getSeverityOverride (getErrorLog (checkConsistencyWithStrictUnits d).2) = prior
  ∧ checkConsistency d
    = ((checkConsistency disabled).1,
       with_override prior (checkConsistency disabled).2)
  ∧ checkConsistencyWithStrictUnits d
    = ((checkConsistencyWithStrictUnits disabled).1,
       with_override prior (checkConsistencyWithStrictUnits disabled).2)
  ∧ checkConsistency d = (plain.1, with_override prior plain.2)
  ∧ mErrors (getErrorLog first.2)
    `prefix_of` mErrors (getErrorLog (checkConsistencyWithStrictUnits d).2)
  ∧ ((checkConsistencyWithStrictUnits d).1 = first.1
     ∨ (checkConsistencyWithStrictUnits d).1
       = ((first.1 + strict.1) `mod` 2 ^ 32)%N).
Proof.
  intros prior disabled units_off plain first strict.
  assert (Hstrict := checkConsistencyWithStrictUnits_outcome d).
  simpl in Hstrict. fold prior first strict in Hstrict.
  split_and!.
  - by rewrite checkConsistency_unfold.
  - rewrite Hstrict. by case_decide.
  - rewrite !checkConsistency_unfold. unfold disabled.
    by rewrite !with_override_twice.
  - rewrite !checkConsistencyWithStrictUnits_unfold. unfold disabled.
    rewrite !with_override_twice. simpl. by destruct (_ || _).
  - by rewrite checkConsistency_unfold, run_checks_in_order.
  - rewrite Hstrict. case_decide; simpl; [done|]. by apply prefix_app_r.
  - rewrite Hstrict. case_decide; simpl; [by left|by right].
Qed.

(** C4.  [checkConsistencyWithStrictUnits] first does what
    [checkConsistency] does with the units category switched off: the
    internal validator, the plugins and the attached validators in order.
    If the log then holds a record of severity fatal or error, the strict
    validator is not run: the count found so far and the document as those
    checks left it are the result, whatever the strict validator would
    say.  Only otherwise the strict validator runs, under the
    force-as-error override; its count is added to the result and its
    failures, when it reports any, are appended to the log with their
    severity made "error"; nothing but the log differs from the document
    that the first checks left. *)
Theorem strict_units_only_after_clean_pass (d : SBMLDocument) :
  let prior := getSeverityOverride (getErrorLog d) in
  let units_off :=
    set_mApplicableValidators
      (InternalValidator_setConsistencyChecks LIBSBML_CAT_UNITS_CONSISTENCY false
         (mApplicableValidators d)) d in
  let r := pass_in_order (with_override LIBSBML_OVERRIDE_DISABLED units_off) in
  let strict := StrictUnitConsistencyValidator_validate
                  (with_override LIBSBML_OVERRIDE_ERROR r.2) in
  let result := checkConsistencyWithStrictUnits d in
  checkConsistency units_off = (r.1, with_override prior r.2)
  ∧ if decide (Exists (λ e, getSeverity e = LIBSBML_SEV_FATAL
                            ∨ getSeverity e = LIBSBML_SEV_ERROR)
                 (mErrors (getErrorLog r.2)))
    then result = (r.1, with_override prior r.2)
    else result.1 = ((r.1 + strict.1) `mod` 2 ^ 32)%N
         ∧ mErrors (getErrorLog result.2)
           = mErrors (getErrorLog r.2)
             ++ (if decide (strict.1 = 0%N) then []
                 else (λ e, {| getErrorId := getErrorId e;
                               getSeverity := LIBSBML_SEV_ERROR;
                               getLevel := getLevel e;
                               getVersion := getVersion e |}) <$> strict.2)
         ∧ getSeverityOverride (getErrorLog result.2) = prior
         ∧ set_mErrorLog (getErrorLog r.2) result.2 = r.2.
Proof.
  intros prior units_off r strict result.
  split.
  { rewrite checkConsistency_unfold. cbv zeta. by rewrite run_checks_in_order. }
  unfold result. rewrite (checkConsistencyWithStrictUnits_outcome d).
  cbv zeta. fold units_off. fold r. fold strict. fold prior.
  change (Exists _ (mErrors (getErrorLog r.2)))
    with (holds_serious_record (getErrorLog r.2)).
  destruct (decide (holds_serious_record (getErrorLog r.2))) as [Hs|Hs];
    [done|].
  simpl. split_and!; [done..|]. by destruct (r.2).
Qed.

(** *** Compatibility checks *)

Section CompatibilityFacts.
Context {table : SeverityTable}.

(** Both ways of writing the scan stop at, and report, the first failure
    that would be an error at the level and version they consult. *)
Lemma scan_assign_some_error level version (errors : list SBMLError) :
  scan_assign level version false errors
  = bool_decide (some_error_at level version errors).
Proof.
  unfold some_error_at. induction errors as [|e errors IH]; [done|]. simpl.
  destruct (decide (getLevelVersionSeverity (getErrorId e) level version
                    = LIBSBML_SEV_ERROR)) as [He|He].
  - rewrite (bool_decide_eq_true_2 _ He).
    rewrite bool_decide_eq_true_2 by (by left). by destruct errors.
  - rewrite (bool_decide_eq_false_2 _ He), IH.
    apply bool_decide_ext. rewrite Exists_cons. tauto.
Qed.

Lemma scan_set_some_error level version (errors : list SBMLError) :
  scan_set level version false errors
  = bool_decide (some_error_at level version errors).
Proof.
  unfold some_error_at. induction errors as [|e errors IH]; [done|]. simpl.
  case_decide as He.
  - rewrite bool_decide_eq_true_2 by (by left). by destruct errors.
  - rewrite IH. apply bool_decide_ext. rewrite Exists_cons. tauto.
Qed.

(** What the unit failures add to the count and to the log, given the
    level and version at which the scan reads severities. *)
Lemma check_units_cases scan level version strictUnitsRequired
    (nerrors : N) (d : SBMLDocument) :
  (∀ errors, scan false errors = bool_decide (some_error_at level version errors)) →
  let unit := UnitConsistencyValidator_validate d in
  check_units scan strictUnitsRequired false nerrors d =
  if decide (0 < unit.1)%N then
    if decide (some_error_at level version unit.2)
    then (uint_add nerrors 1,
          set_mErrorLog (logError strictUnitsRequired (mLevel d) (mVersion d)
                           (getErrorLog d)) d)
    else (uint_add nerrors 0, d)
  else (uint_add nerrors unit.1, d).
Proof.
  intros Hscan. unfold check_units; simpl.
  destruct (UnitConsistencyValidator_validate d) as [unit_errors errors]; simpl.
  case_decide; [|done]. rewrite Hscan.
  case_bool_decide; case_decide; done.
Qed.

(** The four checks side by side.  [checkL1Compatibility] reads severities
    at Level 1 Version 2 and [checkL2v1Compatibility] at Level 2 Version 1;
    [checkL2v2Compatibility] and [checkL2v3Compatibility] read them at
    Level 1 Version 2 as well. *)
Lemma compatibility_checks_unfold (d : SBMLDocument) :
  let after (check : SBMLDocument → N * SBMLErrorLog) :=
    set_mErrorLog (check d).2 d in
  let outcome check level version code :=
    let d1 := after check in
    let unit := UnitConsistencyValidator_validate d1 in
    if decide (0 < unit.1)%N then
      if decide (some_error_at level version unit.2)
      then (uint_add (check d).1 1,
            set_mErrorLog (logError code (mLevel d) (mVersion d)
                             (getErrorLog d1)) d1)
      else (uint_add (check d).1 0, d1)
    else (uint_add (check d).1 unit.1, d1) in
  checkL1Compatibility false d
    = outcome InternalValidator_checkL1Compatibility 1%N 2%N StrictUnitsRequiredInL1
  ∧ checkL2v1Compatibility false d
    = outcome InternalValidator_checkL2v1Compatibility 2%N 1%N StrictUnitsRequiredInL2v1
  ∧ checkL2v2Compatibility false d
    = outcome InternalValidator_checkL2v2Compatibility 1%N 2%N StrictUnitsRequiredInL2v2
  ∧ checkL2v3Compatibility false d
    = outcome InternalValidator_checkL2v3Compatibility 1%N 2%N StrictUnitsRequiredInL2v3.
Proof.
  intros after outcome. unfold outcome, after.
  unfold checkL1Compatibility, checkL2v1Compatibility,
    checkL2v2Compatibility, checkL2v3Compatibility.
  split_and!.
  - destruct (InternalValidator_checkL1Compatibility d) as [n log]; simpl.
    by erewrite check_units_cases by apply scan_assign_some_error.
  - destruct (InternalValidator_checkL2v1Compatibility d) as [n log]; simpl.
    by erewrite check_units_cases by apply scan_set_some_error.
  - destruct (InternalValidator_checkL2v2Compatibility d) as [n log]; simpl.
    by erewrite check_units_cases by apply scan_assign_some_error.
  - destruct (InternalValidator_checkL2v3Compatibility d) as [n log]; simpl.
    by erewrite check_units_cases by apply scan_assign_some_error.
Qed.

(** For the targets L1 and L2v1 the severities are read at the target:
    when the unit validator reports failures, one strict-units error is
    logged and 1 is added if some failure would be an error there, and
    nothing is logged and 0 is added otherwise. *)
Lemma checkL1_checkL2v1_read_target_severity (d : SBMLDocument) :
  let d1 := set_mErrorLog (InternalValidator_checkL1Compatibility d).2 d in
  let d2 := set_mErrorLog (InternalValidator_checkL2v1Compatibility d).2 d in
  (0 < (UnitConsistencyValidator_validate d1).1)%N →
  (0 < (UnitConsistencyValidator_validate d2).1)%N →
  checkL1Compatibility false d
  = (if decide (some_error_at 1 2 (UnitConsistencyValidator_validate d1).2)
     then (uint_add (InternalValidator_checkL1Compatibility d).1 1,
           set_mErrorLog (logError StrictUnitsRequiredInL1 (mLevel d) (mVersion d)
                            (getErrorLog d1)) d1)
     else (uint_add (InternalValidator_checkL1Compatibility d).1 0, d1))
  ∧ checkL2v1Compatibility false d
  = (if decide (some_error_at 2 1 (UnitConsistencyValidator_validate d2).2)
     then (uint_add (InternalValidator_checkL2v1Compatibility d).1 1,
           set_mErrorLog (logError StrictUnitsRequiredInL2v1 (mLevel d) (mVersion d)
                            (getErrorLog d2)) d2)
     else (uint_add (InternalValidator_checkL2v1Compatibility d).1 0, d2)).
Proof.
  intros d1 d2 H1 H2.
  destruct (compatibility_checks_unfold d) as (-> & -> & _). simpl.
  fold d1 d2. by rewrite (decide_True _ _ H1), (decide_True _ _ H2).
Qed.

(** For the targets L2v2 and L2v3 a failure that would be an error at the
    target goes unreported when no failure would be an error at Level 1
    Version 2. *)
Lemma checkL2v2_checkL2v3_miss_target_errors (d : SBMLDocument) :
  let d2 := set_mErrorLog (InternalValidator_checkL2v2Compatibility d).2 d in
  let d3 := set_mErrorLog (InternalValidator_checkL2v3Compatibility d).2 d in
  (0 < (UnitConsistencyValidator_validate d2).1)%N →
  (0 < (UnitConsistencyValidator_validate d3).1)%N →
  ¬ some_error_at 1 2 (UnitConsistencyValidator_validate d2).2 →
  ¬ some_error_at 1 2 (UnitConsistencyValidator_validate d3).2 →
  checkL2v2Compatibility false d
  = (uint_add (InternalValidator_checkL2v2Compatibility d).1 0, d2)
  ∧ checkL2v3Compatibility false d
  = (uint_add (InternalValidator_checkL2v3Compatibility d).1 0, d3).
Proof.
  intros d2 d3 H2 H3 Hno2 Hno3.
  destruct (compatibility_checks_unfold d) as (_ & _ & -> & ->). simpl.
  fold d2 d3. rewrite (decide_True _ _ H2), (decide_True _ _ H3).
  by rewrite (decide_False _ _ Hno2), (decide_False _ _ Hno3).
Qed.

End CompatibilityFacts.

End ValidationFacts.

End DocumentFacts.

Lemma convert_without_converter_witness :
  Document.getConverterFor (ConverterRegistry := Samples.empty_registry)
    [("setLevelAndVersion", "true")] = None
  ∧ Document.convert (registry := Samples.empty_registry)
      [("setLevelAndVersion", "true")] Samples.plain_document
    = (Document.LIBSBML_CONV_CONVERSION_NOT_AVAILABLE, Samples.plain_document).
Proof.
  split; [reflexivity|].
  apply (convert_without_converter (registry := Samples.empty_registry)
           [("setLevelAndVersion", "true")] Samples.plain_document).
  reflexivity.
Defined.

(** *** Packages *)

Section PackageFacts.
Import XMLAttributes Document.

(** The shape of a list around the first element that [list_find] finds. *)
Lemma list_find_split {A} (P : A → Prop) `{!∀ x, Decision (P x)}
    (l : list A) (i : nat) (a : A) :
  list_find P l = Some (i, a) →
  ∃ l1 l2, l = l1 ++ a :: l2 ∧ length l1 = i ∧ P a ∧ Forall (λ x, ¬ P x) l1.
Proof.
  intros (Hi & HP & Hbefore)%list_find_Some.
  exists (take i l), (drop (S i) l). split_and!; [|  |done|].
  - by rewrite take_drop_middle.
  - apply length_take_le. apply lookup_lt_Some in Hi. lia.
  - apply Forall_lookup. intros j y Hj.
    apply lookup_take_Some in Hj as [Hj ?]. eauto.
Qed.

Lemma list_find_first {A} (P : A → Prop) `{!∀ x, Decision (P x)}
    (l1 l2 : list A) (a : A) :
  Forall (λ x, ¬ P x) l1 → P a →
  list_find P (l1 ++ a :: l2) = Some (length l1, a).
Proof.
  intros Hl1 Ha. apply list_find_Some. split_and!; [|done|].
  - by rewrite list_lookup_middle.
  - intros j y Hj Hlt. rewrite lookup_app_l in Hj by done.
    rewrite Forall_lookup in Hl1. eauto.
Qed.

(** [add] appends when no attribute has the name and URI, and overwrites
    the first one that has them otherwise. *)
Lemma add_fresh (name value uri prefix : string) (attrs : XMLAttributes.t) :
  Forall (λ b, ¬ (attr_name b = name ∧ attr_uri b = uri)) attrs →
  add name value uri prefix attrs
  = attrs ++ [{| attr_name := name; attr_value := value;
                 attr_uri := uri; attr_prefix := prefix |}].
Proof.
  intros Hfresh. unfold add, getIndex.
  by rewrite (proj2 (list_find_None _ _) Hfresh).
Qed.

Lemma add_existing (name value uri prefix : string)
    (l1 l2 : XMLAttributes.t) (b : XMLAttribute) :
  Forall (λ b, ¬ (attr_name b = name ∧ attr_uri b = uri)) l1 →
  attr_name b = name → attr_uri b = uri →
  add name value uri prefix (l1 ++ b :: l2)
  = l1 ++ {| attr_name := name; attr_value := value;
             attr_uri := uri; attr_prefix := prefix |} :: l2.
Proof.
  intros Hl1 Hname Huri. unfold add, getIndex.
  rewrite list_find_first by done. simpl.
  by rewrite insert_app_r_alt, Nat.sub_diag.
Qed.

(** A table with one attribute per URI either has none for [uri] or
    splits around the one it has. *)
Lemma required_table_split (uri : string) (attrs : XMLAttributes.t) :
  NoDup (attr_uri <$> attrs) →
  Forall (λ b, attr_uri b ≠ uri) attrs
  ∨ ∃ l1 b l2, attrs = l1 ++ b :: l2 ∧ attr_uri b = uri
      ∧ Forall (λ b, attr_uri b ≠ uri) l1 ∧ Forall (λ b, attr_uri b ≠ uri) l2.
Proof.
  intros Hnodup.
  destruct (list_find (λ b, attr_uri b = uri) attrs) as [[i b]|] eqn:Hfind.
  - right. apply list_find_split in Hfind as (l1 & l2 & -> & _ & Hb & Hl1).
    exists l1, b, l2. split_and!; [done..|].
    rewrite fmap_app, fmap_cons in Hnodup.
    apply NoDup_app in Hnodup as (_ & _ & [Hnotin _]%NoDup_cons).
    apply Forall_forall. intros c Hc Heq. apply Hnotin.
    rewrite Hb, <-Heq. by apply list_elem_of_fmap_2.
  - left. by apply list_find_None in Hfind.
Qed.

Lemma filter_other_uri_id (uri : string) (attrs : XMLAttributes.t) :
  Forall (λ b, attr_uri b ≠ uri) attrs →
  filter (λ b, attr_uri b ≠ uri) attrs = attrs.
Proof.
  induction 1 as [|b attrs Hb _ IH]; [done|].
  by rewrite filter_cons_True, IH.
Qed.

(** [getValue(name, uri)] over a concatenation. *)
Lemma getValue_app (name uri : string) (l1 l2 : XMLAttributes.t) :
  getValue name uri (l1 ++ l2) =
  if decide (Exists (λ b, attr_name b = name ∧ attr_uri b = uri) l1)
  then getValue name uri l1 else getValue name uri l2.
Proof.
  unfold getValue. induction l1 as [|b l1 IH]; simpl; [done|].
  destruct (decide (attr_name b = name ∧ attr_uri b = uri)) as [Hb|Hb]; simpl.
  { rewrite decide_True; [done|by left]. }
  destruct (decide (Exists _ l1)) as [Hl1|Hl1].
  - rewrite decide_True by (by right).
    destruct (list_find _ (l1 ++ l2)) as [[??]|], (list_find _ l1) as [[??]|];
      simpl in *; congruence.
  - rewrite decide_False by (by intros [?|?]%Exists_cons).
    destruct (list_find _ (l1 ++ l2)) as [[??]|], (list_find _ l2) as [[??]|];
      simpl in *; congruence.
Qed.

Lemma getValue_absent (name uri : string) (l : XMLAttributes.t) :
  ¬ Exists (λ b, attr_name b = name ∧ attr_uri b = uri) l →
  getValue name uri l = "".
Proof.
  intros Hno. unfold getValue.
  rewrite (proj2 (list_find_None _ _)); [done|].
  apply Forall_forall. intros b Hb HQ. apply Hno, Exists_exists. eauto.
Qed.

(** Moving an attribute to the end of a table with one attribute per URI
    changes no [getValue]. *)
Lemma getValue_moved_last (name uri : string) (l1 l2 : XMLAttributes.t)
    (a : XMLAttribute) :
  Forall (λ b, attr_uri b ≠ attr_uri a) (l1 ++ l2) →
  getValue name uri ((l1 ++ l2) ++ [a]) = getValue name uri (l1 ++ a :: l2).
Proof.
  intros Hothers.
  rewrite (getValue_app name uri (l1 ++ l2) [a]), (getValue_app name uri l1 l2).
  rewrite (getValue_app name uri l1 (a :: l2)).
  change (a :: l2) with ([a] ++ l2). rewrite (getValue_app name uri [a] l2).
  destruct (decide (Exists _ l1)) as [Hl1|Hl1].
  { rewrite decide_True; [done|]. apply Exists_app. by left. }
  destruct (decide (Exists _ [a])) as [Ha|Ha].
  - rewrite decide_False; [done|].
    apply Exists_cons in Ha as [[_ Ha]|Ha%Exists_nil]; [|done].
    intros (b & Hb & _ & Hburi)%Exists_exists.
    rewrite Forall_forall in Hothers. apply (Hothers b Hb). congruence.
  - destruct (decide (Exists _ (l1 ++ l2))) as [H12|H12]; [done|].
    rewrite (getValue_absent _ _ [a]) by done.
    rewrite getValue_absent; [done|].
    intros ?. apply H12, Exists_app. by right.
Qed.

(** The two tables after [move_package] found the entry. *)
Lemma move_package_found (pkgURI pkgPrefix : string)
    (l1 l2 to : XMLAttributes.t) (a : XMLAttribute) :
  Forall (λ b, attr_uri b ≠ pkgURI) l1 →
  attr_uri a = pkgURI → attr_prefix a = pkgPrefix →
  move_package pkgURI pkgPrefix (l1 ++ a :: l2) to
  = (l1 ++ l2, add (attr_name a) (attr_value a) pkgURI pkgPrefix to).
Proof.
  intros Hl1 Huri Hprefix. unfold move_package, find_package.
  rewrite list_find_first; [| |done].
  - unfold remove. by rewrite delete_middle.
  - eapply Forall_impl; [done|]. intros b Hb [Heq _]. by apply Hb.
Qed.

Section WithCollaborators.
Context {collaborators : Collaborators}.

(** C5, as the code has it.  On side tables as the document keeps them
    ([required_table]), when the table of unknown packages has an entry
    for [(pkgURI, pkgPrefix)], at position [i], disabling and re-enabling
    the package records that entry again with its name, value, URI and
    prefix, and keeps every other entry in place; the entry is recorded
    last, so the table is a permutation of the original one (the original
    one itself when the entry was its last), in which every lookup by name
    and URI answers as before.  The table of disabled packages ends
    without an entry for [pkgURI]. *)
Theorem disable_enable_moves_entry_last (pkgURI pkgPrefix : string)
    (d : SBMLDocument) (i : nat) (a : XMLAttribute) :
  required_table (mRequiredAttrOfUnknownPkg d) →
  required_table (mRequiredAttrOfUnknownDisabledPkg d) →
  find_package pkgURI pkgPrefix (mRequiredAttrOfUnknownPkg d) = Some (i, a) →
  let d' := enablePackageInternal pkgURI pkgPrefix true
              (enablePackageInternal pkgURI pkgPrefix false d) in
  mRequiredAttrOfUnknownPkg d' = delete i (mRequiredAttrOfUnknownPkg d) ++ [a]
  ∧ mRequiredAttrOfUnknownPkg d' ≡ₚ mRequiredAttrOfUnknownPkg d
  ∧ (S i = length (mRequiredAttrOfUnknownPkg d) →
       mRequiredAttrOfUnknownPkg d' = mRequiredAttrOfUnknownPkg d)
  ∧ (∀ name uri, getValue name uri (mRequiredAttrOfUnknownPkg d')
                 = getValue name uri (mRequiredAttrOfUnknownPkg d))
  ∧ mRequiredAttrOfUnknownDisabledPkg d'
    = filter (λ b, attr_uri b ≠ pkgURI) (mRequiredAttrOfUnknownDisabledPkg d)
  ∧ required_table (mRequiredAttrOfUnknownPkg d').
Proof.
  intros [Hnames Hnodup] [Hdnames Hdnodup] Hfind d'.
  unfold find_package in Hfind.
  apply list_find_split in Hfind as (l1 & l2 & Hl & Hi & [Huri Hprefix] & Hl1).
  assert (Ha : a = {| attr_name := "required"; attr_value := attr_value a;
                      attr_uri := pkgURI; attr_prefix := pkgPrefix |}).
  { rewrite Hl in Hnames. apply Forall_app in Hnames as [_ Hnames].
    apply Forall_cons in Hnames as [Hname _].
    destruct a; simpl in *; by subst. }
  assert (Hname : attr_name a = "required") by (by rewrite Ha).
  assert (Hothers : Forall (λ b, attr_uri b ≠ pkgURI) (l1 ++ l2)).
  { rewrite Hl, fmap_app, fmap_cons in Hnodup.
    apply NoDup_app in Hnodup as (_ & Hdisj & [Hnotin _]%NoDup_cons).
    apply Forall_app. split; apply Forall_forall; intros c Hc Heq.
    - apply (Hdisj (attr_uri c)); [by apply list_elem_of_fmap_2|].
      rewrite Heq, Huri. left.
    - apply Hnotin. rewrite <-Huri, <-Heq. by apply list_elem_of_fmap_2. }
  assert (Hpkg : ∀ to, move_package pkgURI pkgPrefix
                         (mRequiredAttrOfUnknownPkg d) to
                       = (l1 ++ l2, add "required" (attr_value a) pkgURI pkgPrefix to)).
  { intros to. rewrite Hl. rewrite move_package_found; [|  |done..].
    - by rewrite Ha.
    - by apply Forall_app in Hothers as [? _]. }
  assert (Hback : move_package pkgURI pkgPrefix
            (add "required" (attr_value a) pkgURI pkgPrefix
               (mRequiredAttrOfUnknownDisabledPkg d)) (l1 ++ l2)
          = (filter (λ b, attr_uri b ≠ pkgURI)
               (mRequiredAttrOfUnknownDisabledPkg d),
             (l1 ++ l2) ++ [a])).
  { assert (Hadd : add "required" (attr_value a) pkgURI pkgPrefix (l1 ++ l2)
                   = (l1 ++ l2) ++ [a]).
    { rewrite add_fresh, <-Ha; [done|].
      eapply Forall_impl; [exact Hothers|]. by intros b Hb [_ ?]. }
    destruct (required_table_split pkgURI _ Hdnodup)
      as [Hnone|(d1 & b & d2 & Hd & Hb & Hd1 & Hd2)].
    - rewrite (add_fresh _ _ _ _ (mRequiredAttrOfUnknownDisabledPkg d))
        by (eapply Forall_impl; [exact Hnone|]; by intros b Hb [_ ?]).
      rewrite <-Ha. rewrite move_package_found by done.
      rewrite (right_id_L [] (++)), Hname, Hadd.
      by rewrite filter_other_uri_id.
    - rewrite Hd. rewrite add_existing; [| |  |done].
      + rewrite <-Ha. rewrite move_package_found by done.
        rewrite Hname, Hadd.
        rewrite filter_app, filter_cons_False by (by intros ?).
        by rewrite !filter_other_uri_id.
      + eapply Forall_impl; [exact Hd1|]. by intros c Hc [_ ?].
      + rewrite Hd in Hdnames. apply Forall_app in Hdnames as [_ Hdnames].
        by apply Forall_cons in Hdnames as [? _]. }
  assert (Hresult : mRequiredAttrOfUnknownPkg d' = (l1 ++ l2) ++ [a]
                    ∧ mRequiredAttrOfUnknownDisabledPkg d'
                      = filter (λ b, attr_uri b ≠ pkgURI)
                          (mRequiredAttrOfUnknownDisabledPkg d)).
  { unfold d', enablePackageInternal. simpl. rewrite Hpkg. simpl.
    by rewrite Hback. }
  destruct Hresult as [Hpkg' Hdis'].
  split_and!.
  - rewrite Hpkg', Hl, <-Hi. by rewrite delete_middle.
  - rewrite Hpkg', Hl.
    rewrite <-Permutation_cons_append. apply Permutation_middle.
  - rewrite Hpkg', Hl, length_app. simpl. intros Hlast.
    assert (l2 = []) as -> by (apply length_zero_iff_nil; lia).
    by rewrite (right_id_L [] (++)).
  - intros name uri. rewrite Hpkg', Hl. apply getValue_moved_last.
    by rewrite <-Huri.
  - done.
  - rewrite Hpkg'. split.
    + rewrite Hl in Hnames. rewrite !Forall_app, Forall_cons in Hnames.
      rewrite !Forall_app, Forall_singleton. tauto.
    + rewrite Hl in Hnodup. revert Hnodup.
      rewrite !fmap_app, !fmap_cons, fmap_nil.
      intros Hnodup. rewrite <-Permutation_cons_append.
      by rewrite Permutation_middle.
Qed.

End WithCollaborators.

End PackageFacts.

(** C5 fails as stated: with two unknown packages recorded, "foo" first,
    disabling and re-enabling "foo" leaves the table with "foo" after
    "bar". *)
Lemma disable_enable_changes_order :
  Samples.foo_required ∈ Document.mRequiredAttrOfUnknownPkg Samples.packages_document
  ∧ Document.mRequiredAttrOfUnknownPkg
      (Samples.disable_enable Samples.foo_uri "foo" Samples.packages_document)
    = [Samples.bar_required; Samples.foo_required]
  ∧ Document.mRequiredAttrOfUnknownPkg
      (Samples.disable_enable Samples.foo_uri "foo" Samples.packages_document)
    ≠ Document.mRequiredAttrOfUnknownPkg Samples.packages_document.
Proof.
  split_and!.
  - left.
  - by vm_compute.
  - by vm_compute.
Qed.

Lemma disable_enable_moves_entry_last_witness :
  XMLAttributes.required_table
    (Document.mRequiredAttrOfUnknownPkg Samples.packages_document)
  ∧ XMLAttributes.required_table
      (Document.mRequiredAttrOfUnknownDisabledPkg Samples.packages_document)
  ∧ Document.find_package Samples.foo_uri "foo"
      (Document.mRequiredAttrOfUnknownPkg Samples.packages_document)
    = Some (0, Samples.foo_required)
  ∧ Document.mRequiredAttrOfUnknownPkg
      (Samples.disable_enable Samples.foo_uri "foo" Samples.packages_document)
    = delete 0 (Document.mRequiredAttrOfUnknownPkg Samples.packages_document)
      ++ [Samples.foo_required].
Proof.
  assert (H1 : XMLAttributes.required_table
                 (Document.mRequiredAttrOfUnknownPkg Samples.packages_document)).
  { split; [by repeat constructor|]. by apply (bool_decide_unpack _); vm_compute. }
  assert (H2 : XMLAttributes.required_table
                 (Document.mRequiredAttrOfUnknownDisabledPkg Samples.packages_document)).
  { split; constructor. }
  split_and!; [exact H1|exact H2|reflexivity|].
  exact (proj1 (disable_enable_moves_entry_last Samples.foo_uri "foo"
                  Samples.packages_document 0 Samples.foo_required
                  H1 H2 eq_refl)).
Defined.

(** C1, at a Level 3 Version 1 document whose unit validator reports one
    failure, a code that is an error at Level 2 Version 2 and Version 3
    and not applicable at Level 1 Version 2: [checkL2v2Compatibility] and
    [checkL2v3Compatibility] return 0 and log nothing, because they read
    the severity at Level 1 Version 2 and not at their target. *)
Theorem checkL2v2Compatibility_reads_L1v2_severity :
  Document.UnitConsistencyValidator_validate (Validators := Samples.validators)
      Samples.plain_document
    = (1%N, [Samples.unit_failure])
  ∧ ErrorLog.getLevelVersionSeverity (table := Samples.severity_table)
      (ErrorLog.getErrorId Samples.unit_failure) 2 2 = ErrorLog.LIBSBML_SEV_ERROR
  ∧ ErrorLog.getLevelVersionSeverity (table := Samples.severity_table)
      (ErrorLog.getErrorId Samples.unit_failure) 2 3 = ErrorLog.LIBSBML_SEV_ERROR
  ∧ ErrorLog.getLevelVersionSeverity (table := Samples.severity_table)
      (ErrorLog.getErrorId Samples.unit_failure) 1 2 ≠ ErrorLog.LIBSBML_SEV_ERROR
  ∧ Document.checkL2v2Compatibility (validators := Samples.validators)
      (table := Samples.severity_table) false Samples.plain_document
    = (0%N, Samples.plain_document)
  ∧ Document.checkL2v3Compatibility (validators := Samples.validators)
      (table := Samples.severity_table) false Samples.plain_document
    = (0%N, Samples.plain_document).
Proof. by vm_compute. Qed.

(** ** The formatter *)

Section FormatterFacts.
Import Formatter.

(** Default suppression for the attributes of a unit. *)
Lemma Unit_element_attributes (u : Unit) :
  Unit_element u =
  XMLElement "unit"
    ([("kind", UnitKind_toString (kind u))]
     ++ (if decide (exponent u = 1%Z) then [] else [("exponent", pretty (exponent u))])
     ++ (if decide (scale u = 0%Z) then [] else [("scale", pretty (scale u))]))
    [].
Proof. done. Qed.

(** A list wrapper is written exactly when there are children. *)
Lemma list_of_empty_iff (name : string) (children : list XMLNode) :
  list_of name children = [] ↔ children = [].
Proof. by destruct children. Qed.

(** C8.  The unit definition "mmls" with the units mole (scale -3), liter
    (exponent -1) and second (exponent -1) is written, under the default
    revision, as a [unitDefinition] element named "mmls" holding one
    [listOfUnits] with the three [unit] elements in that order and nothing
    else; exponent 1 and scale 0 are not written, exponent -1 and scale -3
    are; the text is the one the unit test expects. *)
Theorem mmls_serialization :
  UnitDefinition_element mmls =
    XMLElement "unitDefinition" [("name", "mmls")]
      [ XMLElement "listOfUnits" []
          [ XMLElement "unit" [("kind", "mole"); ("scale", "-3")] [];
            XMLElement "unit" [("kind", "liter"); ("exponent", "-1")] [];
            XMLElement "unit" [("kind", "second"); ("exponent", "-1")] [] ] ]
  ∧ write (UnitDefinition_element mmls) = mmls_expected.
Proof. split; vm_compute; reflexivity. Qed.

(** C9.  The reaction "v1" with the reactant "x0", the product "s1"
    (stoichiometry 1, denominator 1) and the kinetic law
    "(vm * s1)/(km + s1)" without units is written, under the default
    revision, with one [listOfReactants] holding one [speciesReference],
    one [listOfProducts] holding one [speciesReference], and one
    [kineticLaw] element whose only attribute is the formula; the text is
    the one the unit test expects. *)
Theorem v1_serialization :
  Reaction_element default_revision v1 =
    XMLElement "reaction" [("name", "v1")]
      [ XMLElement "listOfReactants" []
          [ XMLElement "speciesReference" [("species", "x0")] [] ];
        XMLElement "listOfProducts" []
          [ XMLElement "speciesReference" [("species", "s1")] [] ];
        XMLElement "kineticLaw" [("formula", "(vm * s1)/(km + s1)")] [] ]
  ∧ write (Reaction_element default_revision v1) = v1_expected.
Proof. split; vm_compute; reflexivity. Qed.

End FormatterFacts.

(** ** The duplicate-identifier constraint: whole runs *)

Section UniqueSpatialIdsRunFacts.
Import UniqueSpatialIds UniqueSpatialIdsRuns.

Lemma presented_ids_snoc (pre : list SBase) (o : SBase) :
  presented_ids (pre ++ [o])
  = presented_ids pre ++ (if isSetId o then [getId o] else []).
Proof.
  unfold presented_ids. rewrite filter_app, fmap_app. f_equal.
  destruct (isSetId o) eqn:Hset.
  - by rewrite filter_cons_True.
  - rewrite filter_cons_False; [done|]. by rewrite Hset.
Qed.

Lemma elem_of_presented_ids (id : string) (objects : list SBase) :
  id ∈ presented_ids objects
  ↔ ∃ p, p ∈ objects ∧ isSetId p = true ∧ getId p = id.
Proof.
  unfold presented_ids. rewrite list_elem_of_fmap. split.
  - intros (p & -> & [Hset Hp]%list_elem_of_filter). eauto.
  - intros (p & Hp & Hset & <-). exists p. split; [done|].
    by apply list_elem_of_filter.
Qed.

Lemma first_with_id_is_Some (id : string) (seen : list SBase) :
  is_Some (first_with_id id seen) ↔ id ∈ presented_ids seen.
Proof.
  rewrite elem_of_presented_ids. split.
  - intros [p Hp]. apply first_with_id_Some in Hp. eauto.
  - intros (p & Hp & Hset & Hid).
    destruct (first_with_id id seen) eqn:Hfirst; [done|].
    by destruct (first_with_id_None _ _ Hfirst p Hp Hset).
Qed.

(** One more object checked: what the log gains. *)
Lemma failures_doCheckIds_snoc (pre : list SBase) (o : SBase) :
  failures (doCheckIds (pre ++ [o]) create)
  = failures (doCheckIds pre create) ++ conflict_of pre o.
Proof.
  rewrite doCheckIds_app. unfold doCheckIds at 1. simpl.
  rewrite doCheckId_cases. unfold conflict_of.
  destruct (isSetId o); [|by rewrite (right_id_L [] (++))].
  rewrite mIdMap_doCheckIds. simpl.
  destruct (first_with_id (getId o) pre); simpl; [done|].
  by rewrite (right_id_L [] (++)).
Qed.

Lemma conflict_of_length (pre : list SBase) (o : SBase) :
  length (conflict_of pre o)
  = if decide (isSetId o = true ∧ getId o ∈ presented_ids pre) then 1 else 0.
Proof.
  unfold conflict_of. destruct (isSetId o).
  - destruct (first_with_id (getId o) pre) as [p|] eqn:Hfirst.
    + rewrite decide_True; [done|]. split; [done|].
      apply first_with_id_is_Some. by rewrite Hfirst.
    + rewrite decide_False; [done|]. intros [_ Hin%first_with_id_is_Some].
      rewrite Hfirst in Hin. by destruct Hin.
  - rewrite decide_False; [done|]. by intros [? _].
Qed.

Lemma run_objects (m : Model) :
  run m = failures (doCheckIds (checked_objects m) create).
Proof. unfold run. by rewrite doCheck_objects. Qed.

(** X1.  A run logs nothing exactly when the ids that the checked objects
    present are pairwise different. *)
Theorem run_empty_iff_ids_distinct (m : Model) :
  run m = [] ↔ NoDup (presented_ids (checked_objects m)).
Proof.
  rewrite run_objects.
  induction (checked_objects m) as [|o pre IH] using rev_ind.
  - split; [constructor|done].
  - rewrite failures_doCheckIds_snoc, presented_ids_snoc.
    rewrite NoDup_app, <-IH. split.
    + intros [Hpre Hconflict]%app_eq_nil. split; [done|].
      assert (Hlen := conflict_of_length pre o). rewrite Hconflict in Hlen.
      destruct (isSetId o); [|split; [by intros ?? ?%elem_of_nil|constructor]].
      split; [|apply NoDup_singleton].
      intros id Hid ->%list_elem_of_singleton.
      rewrite decide_True in Hlen; done.
    + intros (Hpre & Hdisjoint & _). rewrite Hpre. simpl.
      apply length_zero_iff_nil. rewrite conflict_of_length.
      rewrite decide_False; [done|]. intros [Hset Hin]. rewrite Hset in Hdisjoint.
      apply (Hdisjoint _ Hin). left.
Qed.

(** X2.  The number of failures of a run is the number of objects with a
    set id less the number of different ids among them: every object
    after the first with its id is one failure. *)
Theorem run_counts_repeated_ids (m : Model) :
  length (run m) + distinct_ids (checked_objects m)
  = length (presented_ids (checked_objects m)).
Proof.
  rewrite run_objects. unfold distinct_ids.
  induction (checked_objects m) as [|o pre IH] using rev_ind; [done|].
  rewrite failures_doCheckIds_snoc, presented_ids_snoc, !length_app.
  rewrite conflict_of_length, list_to_set_app_L.
  set (ids := list_to_set (presented_ids pre) : gset string) in *.
  assert (Hids : ∀ x, x ∈ ids ↔ x ∈ presented_ids pre)
    by (intros x; apply elem_of_list_to_set).
  destruct (isSetId o) eqn:Hset; simpl.
  - rewrite (right_id_L ∅ (∪)). case_decide as Hin.
    + destruct Hin as [_ Hin%Hids].
      assert (ids ∪ {[getId o]} = ids) as ->; [|lia].
      rewrite (comm_L (∪)). apply subseteq_union_1_L.
      by apply singleton_subseteq_l.
    + rewrite size_union, size_singleton; [lia|].
      apply disjoint_singleton_r. rewrite Hids. tauto.
  - rewrite (right_id_L ∅ (∪)). simpl. lia.
Qed.

(** X3.  Every failure of a run is a conflict between two checked
    objects at different positions of the checking order: it is logged on
    the later one and names the earlier one, which is the first object of
    the run with that id; both have their id set and have the same id.
    It is worded as a conflict: the text for the internal error of
    [getMessage] is never logged. *)
Theorem run_logs_only_conflicts (m : Model) :
  Forall (λ failure, conflict_within (checked_objects m) failure
                     ∧ failure.2 ≠ internal_error_message) (run m).
Proof.
  rewrite run_objects.
  induction (checked_objects m) as [|o pre IH] using rev_ind; [constructor|].
  rewrite failures_doCheckIds_snoc. apply Forall_app. split.
  - eapply Forall_impl; [exact IH|].
    intros [o' msg] [(i & j & p & Hij & Hi & Hj & Hpset & Hset & Hid & Hfirst & Hmsg) ?].
    split; [|done]. exists i, j, p.
    assert (j < length pre) by (by eapply lookup_lt_Some).
    split_and!; [done|by apply lookup_app_l_Some..|done|done|done| |done].
    intros k q Hk Hq. apply (Hfirst k q Hk).
    by rewrite lookup_app_l in Hq by lia.
  - unfold conflict_of. destruct (isSetId o) eqn:Hset; [|constructor].
    destruct (first_with_id (getId o) pre) as [p|] eqn:Hfirst; [|constructor].
    apply Forall_singleton. split.
    + unfold first_with_id in Hfirst.
      destruct (list_find _ pre) as [[i p']|] eqn:Hfind; [|done].
      simpl in Hfirst. injection Hfirst as ->.
      apply list_find_Some in Hfind as (Hi & [Hpset Hid] & Hearlier).
      assert (i < length pre) by (by eapply lookup_lt_Some).
      exists i, (length pre), p. simpl.
      split_and!; [done|by apply lookup_app_l_Some|by apply list_lookup_middle
                  |done|done|done| |done].
      intros k q Hk Hq. rewrite lookup_app_l in Hq by lia.
      by apply (Hearlier k q).
    + simpl. unfold conflict_text, internal_error_message. discriminate.
Qed.

(** X4.  Objects whose id is not set take no part in a check: leaving
    them out of the sequence changes neither the scratch map nor the
    log. *)
Theorem doCheckIds_skips_unset_ids (objects : list SBase) (c : t) :
  doCheckIds objects c = doCheckIds (filter (λ o, isSetId o = true) objects) c.
Proof.
  revert c. induction objects as [|o objects IH]; intros c; [done|].
  destruct (isSetId o) eqn:Hset.
  - rewrite filter_cons_True by done. unfold doCheckIds in *. simpl. apply IH.
  - rewrite filter_cons_False by (by rewrite Hset).
    unfold doCheckIds in *. simpl. rewrite <-IH.
    by rewrite doCheckId_cases, Hset.
Qed.

End UniqueSpatialIdsRunFacts.

(** ** The document, continued *)

Section DocumentMoreFacts.
Import ErrorLog Document ConsistencyPass DocumentMore.
Context {collaborators : Collaborators}.

(** *** Attached validators and child objects *)

Lemma getValidator_loop_zero (index : N) (it : list SBMLValidator) :
  getValidator_loop 0 index it = if decide (index = 0%N) then head it else None.
Proof.
  induction it as [|v it IH]; simpl; [by case_decide|].
  destruct (decide (0%N = index)) as [<-|Hne]; [done|].
  rewrite IH. by rewrite !decide_False.
Qed.

(** X5.  [getValidator] answers the first attached validator for index 0
    and none for every other index, also for an index below
    [getNumValidators()]: the loop never advances its counter. *)
Theorem getValidator_answers_only_index_zero (index : N) (d : SBMLDocument) :
  getValidator index d =
  if decide (index = 0 ∧ 0 < getNumValidators d)%N
  then head (mValidators d) else None.
Proof.
  unfold getValidator. rewrite getValidator_loop_zero.
  destruct (decide (index = 0%N)) as [->|Hne].
  - destruct (decide (getNumValidators d ≤ 0)%N).
    + rewrite decide_False; [done|]. lia.
    + rewrite decide_True; [done|]. lia.
  - destruct (decide (index = 0%N ∧ _)) as [[? _]|_]; [done|]. by case_decide.
Qed.

(** X6.  [getObject] does not look at its index: for the name "model" it
    answers the model of the document, or nothing when the document has
    none, whatever the index, and for any other name nothing; it answers
    an object exactly when [getNumObjects] counts one. *)
Theorem getObject_ignores_index (elementName : string) (index : N)
    (d : SBMLDocument) :
  getObject elementName index d
  = (if decide (elementName = "model") then mModel d else None)
  ∧ getObject elementName index d = getObject elementName 0 d
  ∧ (is_Some (getObject elementName index d) ↔ getNumObjects elementName d = 1%N)
  ∧ (getObject elementName index d = None ↔ getNumObjects elementName d = 0%N).
Proof.
  unfold getObject, getNumObjects, isSetModel, getModel.
  split; [done|]. split; [done|].
  destruct (decide (elementName = "model")) as [->|Hne].
  - destruct (mModel d) as [m|] eqn:Hm.
    + rewrite decide_True; [|split; [done|by apply bool_decide_eq_true]].
      split; [by split|by split].
    + rewrite decide_False; [|intros [_ ?%bool_decide_eq_true]; done].
      split; [split; [by intros [??]|done]|done].
  - rewrite decide_False by tauto.
    split; [split; [by intros [??]|done]|done].
Qed.

(** *** Checks *)

Section WithValidators.
Context {validators : Validators}.

(** Running the plugins and the attached validators changes nothing of
    the document but its error log. *)
Lemma check_plugins_only_log (n : N) (d : SBMLDocument) log :
  set_mErrorLog log (check_plugins n d).2 = set_mErrorLog log d.
Proof.
  unfold check_plugins. generalize (mPlugins d). intros ps.
  revert n d. induction ps as [|p ps IH]; intros n d; [done|]. simpl.
  destruct (DocumentPlugin_checkConsistency p d) as [k l]. by rewrite IH.
Qed.

Lemma run_validators_only_log (n : N) (d : SBMLDocument) log :
  set_mErrorLog log (run_validators n d).2 = set_mErrorLog log d.
Proof.
  unfold run_validators. generalize (mValidators d). intros vs.
  revert n d. induction vs as [|v vs IH]; intros n d; [done|]. simpl.
  destruct (SBMLValidator_validate v d) as [k fs].
  case_decide; by rewrite IH.
Qed.

Lemma run_checks_only_log (d : SBMLDocument) log :
  set_mErrorLog log (run_checks d).2 = set_mErrorLog log d.
Proof.
  unfold run_checks.
  destruct (InternalValidator_checkConsistency d) as [n l].
  destruct (check_plugins n (set_mErrorLog l d)) as [n' d'] eqn:Hplugins.
  rewrite run_validators_only_log.
  change d' with (n', d').2. by rewrite <-Hplugins, check_plugins_only_log.
Qed.

(** X7.  [validateSBML] does what [checkConsistency] does, the same count
    and the same document: the internal validator, the plugins and the
    attached validators run in order on the document as it was found,
    the records of its log kept and its severity override disabled, and
    the override is put back at the end. *)
Theorem validateSBML_is_checkConsistency (d : SBMLDocument) :
  let prior := getSeverityOverride (getErrorLog d) in
  let as_found :=
    set_mErrorLog {| mErrors := mErrors (mErrorLog d);
                     mOverriddenSeverity := LIBSBML_OVERRIDE_DISABLED |} d in
  let r := pass_in_order as_found in
  validateSBML d = checkConsistency d
  ∧ validateSBML d
    = (r.1, set_mErrorLog {| mErrors := mErrors (mErrorLog r.2);
                             mOverriddenSeverity := prior |} r.2).
Proof.
  intros prior as_found r.
  assert (Hsame : validateSBML d = checkConsistency d).
  { unfold validateSBML, checkConsistency, run_checks.
    destruct (InternalValidator_checkConsistency _) as [n l].
    destruct (check_plugins n _) as [n' d'].
    by destruct (run_validators n' d'). }
  split; [done|].
  rewrite Hsame, checkConsistency_unfold. cbv zeta.
  by rewrite run_checks_in_order.
Qed.

(** X8.  [checkConsistency] changes nothing of the document but its error
    log.  [checkConsistencyWithStrictUnits] changes the error log and the
    mask of applicable validators, and nothing else: on both of its return
    paths it leaves the mask at what switching the units category off made
    of it. *)
Theorem consistency_checks_frame (d : SBMLDocument) :
  set_mErrorLog (mErrorLog d) (checkConsistency d).2 = d
  ∧ mApplicableValidators (checkConsistencyWithStrictUnits d).2
    = InternalValidator_setConsistencyChecks LIBSBML_CAT_UNITS_CONSISTENCY false
        (mApplicableValidators d)
  ∧ set_mApplicableValidators (mApplicableValidators d)
      (set_mErrorLog (mErrorLog d) (checkConsistencyWithStrictUnits d).2) = d.
Proof.
  assert (Hframe : ∀ d0 log, set_mErrorLog log (run_checks d0).2 = set_mErrorLog log d0)
    by (intros; apply run_checks_only_log).
  split_and!.
  - rewrite checkConsistency_unfold. simpl. unfold with_override.
    change (set_mErrorLog (mErrorLog d) (set_mErrorLog ?l ?x))
      with (set_mErrorLog (mErrorLog d) x).
    rewrite Hframe. by destruct d.
  - rewrite checkConsistencyWithStrictUnits_unfold. simpl.
    set (d0 := setConsistencyChecks _ _ _).
    assert (Hm : mApplicableValidators (run_checks d0).2 = mApplicableValidators d0).
    { change (mApplicableValidators (run_checks d0).2)
        with (mApplicableValidators (set_mErrorLog (mErrorLog d) (run_checks d0).2)).
      by rewrite Hframe. }
    destruct (_ || _); simpl; [exact Hm|].
    case_decide; exact Hm.
  - rewrite checkConsistencyWithStrictUnits_unfold. simpl.
    set (d0 := setConsistencyChecks _ _ _).
    assert (Hd0 : set_mApplicableValidators (mApplicableValidators d)
                    (set_mErrorLog (mErrorLog d) (run_checks d0).2) = d).
    { rewrite Hframe. by destruct d. }
    destruct (_ || _); simpl; [exact Hd0|].
    case_decide; exact Hd0.
Qed.

Section WithTable.
Context {table : SeverityTable}.

Lemma check_units_in_conversion scan code (n : N) (d : SBMLDocument) :
  check_units scan code true n d = (uint_add n 0, d).
Proof. done. Qed.

Lemma log_with_nothing_appended (log : SBMLErrorLog) :
  {| mErrors := mErrors log ++ []; mOverriddenSeverity := mOverriddenSeverity log |}
  = log.
Proof. destruct log. simpl. by rewrite (right_id_L [] (++)). Qed.

(** The outcome of a compatibility check from what the internal validator
    returned and the record of [strict_units_record]. *)
Lemma check_units_outcome scan level version code inConversion
    (n : N) (d : SBMLDocument) :
  (∀ errors, scan false errors = bool_decide (some_error_at level version errors)) →
  let record := strict_units_record level version code inConversion d in
  check_units scan code inConversion n d
  = (uint_add n (N.of_nat (length record)),
     set_mErrorLog {| mErrors := mErrors (mErrorLog d) ++ record;
                      mOverriddenSeverity := mOverriddenSeverity (mErrorLog d) |} d).
Proof.
  intros Hscan record. unfold record, strict_units_record.
  destruct inConversion.
  - rewrite check_units_in_conversion, decide_False by (by intros [? _]).
    simpl. rewrite log_with_nothing_appended. by destruct d.
  - rewrite (check_units_cases scan level version) by done. simpl.
    destruct (decide (0 < (UnitConsistencyValidator_validate d).1)%N) as [Hpos|Hzero].
    + destruct (decide (some_error_at level version _)) as [Herr|Hnone].
      * by rewrite decide_True.
      * rewrite decide_False by tauto. simpl.
        rewrite log_with_nothing_appended. by destruct d.
    + rewrite decide_False by tauto. simpl.
      rewrite log_with_nothing_appended.
      assert ((UnitConsistencyValidator_validate d).1 = 0%N) as -> by lia.
      by destruct d.
Qed.

(** X9.  Each of the four compatibility checks with a unit pass changes
    nothing of the document but its error log.  To what the internal
    validator logged it appends at most one record: the strict-units
    code of its target, made for the level and version of the document,
    exactly when it is not called from a conversion, the unit validator
    reports a positive count and one of its failures would be an error at
    the level and version the check consults, which is Level 2 Version 1
    for [checkL2v1Compatibility] and Level 1 Version 2 for the three
    others.  The count returned is the internal validator's plus the
    number of records appended. *)
Theorem compatibility_checks_outcome (inConversion : bool) (d : SBMLDocument) :
  let outcome (check : SBMLDocument → N * SBMLErrorLog) level version code :=
    let after := set_mErrorLog (check d).2 d in
    let record := strict_units_record level version code inConversion after in
    (uint_add (check d).1 (N.of_nat (length record)),
     set_mErrorLog {| mErrors := mErrors (check d).2 ++ record;
                      mOverriddenSeverity := mOverriddenSeverity (check d).2 |} d) in
  checkL1Compatibility inConversion d
    = outcome InternalValidator_checkL1Compatibility 1%N 2%N StrictUnitsRequiredInL1
  ∧ checkL2v1Compatibility inConversion d
    = outcome InternalValidator_checkL2v1Compatibility 2%N 1%N StrictUnitsRequiredInL2v1
  ∧ checkL2v2Compatibility inConversion d
    = outcome InternalValidator_checkL2v2Compatibility 1%N 2%N StrictUnitsRequiredInL2v2
  ∧ checkL2v3Compatibility inConversion d
    = outcome InternalValidator_checkL2v3Compatibility 1%N 2%N StrictUnitsRequiredInL2v3.
Proof.
  intros outcome. unfold outcome.
  unfold checkL1Compatibility, checkL2v1Compatibility,
    checkL2v2Compatibility, checkL2v3Compatibility.
  split_and!.
  - destruct (InternalValidator_checkL1Compatibility d) as [n log]; simpl.
    by rewrite (check_units_outcome _ 1 2) by apply scan_assign_some_error.
  - destruct (InternalValidator_checkL2v1Compatibility d) as [n log]; simpl.
    by rewrite (check_units_outcome _ 2 1) by apply scan_set_some_error.
  - destruct (InternalValidator_checkL2v2Compatibility d) as [n log]; simpl.
    by rewrite (check_units_outcome _ 1 2) by apply scan_assign_some_error.
  - destruct (InternalValidator_checkL2v3Compatibility d) as [n log]; simpl.
    by rewrite (check_units_outcome _ 1 2) by apply scan_assign_some_error.
Qed.

End WithTable.

End WithValidators.

(** X10.  [checkInternalConsistency] returns with the severity override of
    the log at the value it had on entry, lets the internal validator work
    with the override disabled, whatever that value, and changes nothing of
    the document but its error log. *)
Theorem checkInternalConsistency_scopes_override {checks : InternalChecks}
    (d : SBMLDocument) :
  let prior := getSeverityOverride (getErrorLog d) in
  let disabled := with_override LIBSBML_OVERRIDE_DISABLED d in
  getSeverityOverride (getErrorLog (checkInternalConsistency d).2) = prior
  ∧ checkInternalConsistency d
    = ((checkInternalConsistency disabled).1,
       with_override prior (checkInternalConsistency disabled).2)
  ∧ (checkInternalConsistency d).1
    = (InternalValidator_checkInternalConsistency disabled).1
  ∧ set_mErrorLog (mErrorLog d) (checkInternalConsistency d).2 = d.
Proof.
  intros prior disabled. unfold checkInternalConsistency.
  change (set_mErrorLog (setSeverityOverride LIBSBML_OVERRIDE_DISABLED
            (getErrorLog disabled)) disabled) with disabled.
  change (set_mErrorLog (setSeverityOverride LIBSBML_OVERRIDE_DISABLED
            (getErrorLog d)) d) with disabled.
  destruct (InternalValidator_checkInternalConsistency disabled) as [n log].
  split_and!; try done. by destruct d.
Qed.

End DocumentMoreFacts.

(** ** Conversions by name and packages *)

Section PackageMoreFacts.
Import ErrorLog XMLAttributes Document DocumentMore.
Context {collaborators : Collaborators}.

(** X11.  With a registry that has no converter for any properties, the
    three conversions by name answer false and leave the document as it
    was. *)
Theorem named_conversions_without_converter {registry : ConverterRegistry}
    {options : ConversionOptions} (d : SBMLDocument) :
  (∀ props, getConverterFor props = None) →
  expandFunctionDefinitions d = (false, d)
  ∧ expandInitialAssignments d = (false, d)
  ∧ ∀ level version strict ignorePackages,
      setLevelAndVersion level version strict ignorePackages d = (false, d).
Proof.
  intros Hnone.
  unfold expandFunctionDefinitions, expandInitialAssignments, setLevelAndVersion,
    convert.
  split_and!; intros; by rewrite Hnone.
Qed.

(** *** The use-default-namespace flag *)

Section WithPlugins.
Context {plugin_ops : PluginOps}.



(** X13.  Disabling a package erases its use-default-namespace flag, and
    enabling it again does not bring the flag back: after either, the map
    is the original one without the entry of the package URI, so that
    [isEnabledDefaultNS] answers false for every package that resolves to
    that URI. *)
Theorem disable_erases_default_namespace_flag (pkgURI pkgPrefix : string)
    (d : SBMLDocument) :
  let disabled := enablePackageInternal pkgURI pkgPrefix false d in
  let reenabled := enablePackageInternal pkgURI pkgPrefix true disabled in
  mPkgUseDefaultNSMap disabled = delete pkgURI (mPkgUseDefaultNSMap d)
  ∧ mPkgUseDefaultNSMap reenabled = delete pkgURI (mPkgUseDefaultNSMap d)
  ∧ mPkgUseDefaultNSMap (enablePackageInternal pkgURI pkgPrefix true d)
    = mPkgUseDefaultNSMap d
  ∧ ∀ package,
      (last_package_uri package (mPlugins disabled) = pkgURI →
       isEnabledDefaultNS package disabled = false)
      ∧ (last_package_uri package (mPlugins reenabled) = pkgURI →
         isEnabledDefaultNS package reenabled = false).
Proof.
  intros disabled reenabled.
  assert (H1 : mPkgUseDefaultNSMap disabled = delete pkgURI (mPkgUseDefaultNSMap d)).
  { unfold disabled, enablePackageInternal. simpl.
    by destruct (move_package _ _ _ _). }
  assert (H3 : ∀ d0, mPkgUseDefaultNSMap (enablePackageInternal pkgURI pkgPrefix true d0)
                     = mPkgUseDefaultNSMap d0).
  { intros d0. unfold enablePackageInternal. simpl.
    by destruct (move_package _ _ _ _). }
  assert (H2 : mPkgUseDefaultNSMap reenabled = delete pkgURI (mPkgUseDefaultNSMap d)).
  { unfold reenabled. by rewrite H3. }
  split_and!; [done..|].
  intros package. unfold isEnabledDefaultNS.
  split; intros ->; [rewrite H1|rewrite H2]; by rewrite lookup_delete_eq.
Qed.

End WithPlugins.

End PackageMoreFacts.

Lemma named_conversions_without_converter_witness :
  (∀ props, Document.getConverterFor (ConverterRegistry := Samples.empty_registry)
              props = None)
  ∧ DocumentMore.setLevelAndVersion (options := MoreSamples.options) 2 4 true false
      Samples.plain_document
    = (false, Samples.plain_document).
Proof.
  split; [reflexivity|].
  apply (named_conversions_without_converter (options := MoreSamples.options)
           Samples.plain_document).
  reflexivity.
Defined.

(** ** The side tables of unknown packages *)

Section UnknownPackageFacts.
Import ErrorLog XMLAttributes Document DocumentMore.

(** The two ways in which [add] changes a table. *)
Lemma add_cases (name value uri prefix : string) (attrs : XMLAttributes.t) :
  let a := {| attr_name := name; attr_value := value;
              attr_uri := uri; attr_prefix := prefix |} in
  let Q := λ b, attr_name b = name ∧ attr_uri b = uri in
  (Forall (λ b, ¬ Q b) attrs ∧ getIndex name uri attrs = None
   ∧ add name value uri prefix attrs = attrs ++ [a])
  ∨ ∃ l1 b l2, attrs = l1 ++ b :: l2 ∧ Forall (λ b, ¬ Q b) l1 ∧ Q b
      ∧ getIndex name uri attrs = Some (length l1)
      ∧ add name value uri prefix attrs = l1 ++ a :: l2.
Proof.
  intros a Q.
  destruct (list_find Q attrs) as [[i b]|] eqn:Hfind.
  - right. apply list_find_split in Hfind as (l1 & l2 & -> & _ & [Hn Hu] & Hl1).
    exists l1, b, l2. split_and!; [done..| |by apply add_existing].
    unfold getIndex. by rewrite list_find_first.
  - left. assert (Hnone := Hfind). apply list_find_None in Hnone.
    split_and!; [done| |by apply add_fresh].
    unfold getIndex. fold Q. by rewrite Hfind.
Qed.

Lemma getValue_cons_other (name uri : string) (b : XMLAttribute)
    (l : XMLAttributes.t) :
  ¬ (attr_name b = name ∧ attr_uri b = uri) →
  getValue name uri (b :: l) = getValue name uri l.
Proof.
  intros Hb. change (b :: l) with ([b] ++ l).
  rewrite getValue_app, decide_False; [done|].
  by intros [?|?%Exists_nil]%Exists_cons.
Qed.

Lemma getValue_first (name uri : string) (l1 l2 : XMLAttributes.t)
    (b : XMLAttribute) :
  Forall (λ b, ¬ (attr_name b = name ∧ attr_uri b = uri)) l1 →
  attr_name b = name → attr_uri b = uri →
  getValue name uri (l1 ++ b :: l2) = attr_value b.
Proof.
  intros Hl1 Hn Hu. unfold getValue. by rewrite list_find_first.
Qed.

(** Reading back what [add] wrote, and what it did not write. *)
Lemma getValue_add_same (name value uri prefix : string) (attrs : XMLAttributes.t) :
  getValue name uri (add name value uri prefix attrs) = value.
Proof.
  destruct (add_cases name value uri prefix attrs)
    as [(Hnone & _ & ->)|(l1 & b & l2 & -> & Hl1 & _ & _ & ->)];
    by rewrite getValue_first.
Qed.

Lemma getValue_add_other (name value uri prefix name' uri' : string)
    (attrs : XMLAttributes.t) :
  ¬ (name' = name ∧ uri' = uri) →
  getValue name' uri' (add name value uri prefix attrs) = getValue name' uri' attrs.
Proof.
  intros Hother.
  destruct (add_cases name value uri prefix attrs)
    as [(Hnone & _ & ->)|(l1 & b & l2 & -> & Hl1 & [Hbn Hbu] & _ & ->)].
  - rewrite getValue_app. case_decide as Hex; [done|].
    rewrite getValue_cons_other by (simpl; intros [??]; by apply Hother).
    by rewrite (getValue_absent _ _ attrs).
  - rewrite !(getValue_app _ _ l1). case_decide; [done|].
    rewrite !getValue_cons_other; [done|..].
    + intros [??]. apply Hother. by subst.
    + simpl. intros [??]. by apply Hother.
Qed.

(** [add] of a "required" attribute and [remove] keep a table a
    [required_table]. *)
Lemma add_required_table (value uri prefix : string) (attrs : XMLAttributes.t) :
  required_table attrs → required_table (add "required" value uri prefix attrs).
Proof.
  intros [Hnames Hnodup].
  destruct (add_cases "required" value uri prefix attrs)
    as [(Hnone & _ & ->)|(l1 & b & l2 & -> & Hl1 & [Hbn Hbu] & _ & ->)].
  - split.
    + apply Forall_app. split; [done|]. by apply Forall_singleton.
    + rewrite fmap_app. apply NoDup_app. split_and!; [done| |apply NoDup_singleton].
      intros u [c [-> Hc]]%list_elem_of_fmap Heq%list_elem_of_singleton.
      rewrite Forall_forall in Hnone. rewrite Forall_forall in Hnames.
      apply (Hnone c Hc). split; [by apply Hnames|done].
  - split.
    + apply Forall_app in Hnames as [? [_ ?]%Forall_cons].
      apply Forall_app. split; [done|]. by apply Forall_cons.
    + revert Hnodup. rewrite !fmap_app, !fmap_cons. simpl. by rewrite Hbu.
Qed.

Lemma delete_middle_required_table (l1 l2 : XMLAttributes.t) (a : XMLAttribute) :
  required_table (l1 ++ a :: l2) →
  required_table (l1 ++ l2) ∧ Forall (λ b, attr_uri b ≠ attr_uri a) (l1 ++ l2).
Proof.
  intros [Hnames Hnodup].
  apply Forall_app in Hnames as [Hn1 [_ Hn2]%Forall_cons].
  rewrite fmap_app, fmap_cons in Hnodup.
  apply NoDup_app in Hnodup as (Hd1 & Hdisj & [Hnotin Hd2]%NoDup_cons).
  split; [split|].
  - by apply Forall_app.
  - rewrite fmap_app. apply NoDup_app. split_and!; [done| |done].
    intros u Hu1 Hu2. apply (Hdisj u Hu1). by right.
  - apply Forall_app. split; apply Forall_forall; intros c Hc Heq.
    + apply (Hdisj (attr_uri c)); [by apply list_elem_of_fmap_2|].
      rewrite Heq. left.
    + apply Hnotin. rewrite <-Heq. by apply list_elem_of_fmap_2.
Qed.

Lemma move_package_required_table (pkgURI pkgPrefix : string)
    (from to : XMLAttributes.t) :
  required_table from → required_table to →
  required_table (move_package pkgURI pkgPrefix from to).1
  ∧ required_table (move_package pkgURI pkgPrefix from to).2.
Proof.
  intros Hfrom Hto. unfold move_package, find_package.
  destruct (list_find _ from) as [[i a]|] eqn:Hfind; [|done]. simpl.
  apply list_find_split in Hfind as (l1 & l2 & -> & <- & _ & _).
  unfold remove. rewrite delete_middle.
  destruct (delete_middle_required_table _ _ _ Hfrom) as [? _].
  split; [done|].
  destruct Hfrom as [Hnames _].
  apply Forall_app in Hnames as [_ [-> _]%Forall_cons].
  by apply add_required_table.
Qed.

Context {collaborators : Collaborators} {plugin_ops : PluginOps}.

(** X14.  The functions that write the two side tables keep them tables of
    "required" attributes with one attribute per namespace URI:
    [addUnknownPackageRequired], [setPackageRequired] and
    [enablePackageInternal] in both directions. *)
Theorem side_tables_stay_required_tables (d : SBMLDocument) :
  required_table (mRequiredAttrOfUnknownPkg d) →
  required_table (mRequiredAttrOfUnknownDisabledPkg d) →
  ∀ (package prefix : string) (flag : bool),
    let tables_ok d' := required_table (mRequiredAttrOfUnknownPkg d')
                        ∧ required_table (mRequiredAttrOfUnknownDisabledPkg d') in
    tables_ok (addUnknownPackageRequired package prefix flag d).2
    ∧ tables_ok (setPackageRequired package flag d).2
    ∧ tables_ok (enablePackageInternal package prefix flag d).
Proof.
  intros Hpkg Hdis package prefix flag tables_ok. unfold tables_ok.
  split_and!.
  - by apply add_required_table.
  - done.
  - unfold setPackageRequired.
    destruct (list_find _ (mPlugins d)) as [[i p]|].
    + by destruct (Plugin_setRequired flag p).
    + case_decide; [|done]. by apply add_required_table.
  - unfold setPackageRequired.
    destruct (list_find _ (mPlugins d)) as [[i p]|].
    + by destruct (Plugin_setRequired flag p).
    + by case_decide.
  - unfold enablePackageInternal. destruct flag; simpl.
    + destruct (move_package_required_table package prefix _ _ Hdis Hpkg).
      by destruct (move_package _ _ _ _).
    + destruct (move_package_required_table package prefix _ _ Hpkg Hdis).
      by destruct (move_package _ _ _ _).
  - unfold enablePackageInternal. destruct flag; simpl.
    + destruct (move_package_required_table package prefix _ _ Hdis Hpkg).
      by destruct (move_package _ _ _ _).
    + destruct (move_package_required_table package prefix _ _ Hpkg Hdis).
      by destruct (move_package _ _ _ _).
Qed.

Lemma bool_text_true (flag : bool) :
  (if decide (bool_text flag = "true") then true else false) = flag.
Proof. by destruct flag. Qed.

Lemma bool_text_not_empty (flag : bool) : bool_text flag ≠ "".
Proof. by destruct flag. Qed.

(** X15.  After [addUnknownPackageRequired] for a URI, the document has
    the package as an unknown one with its "required" attribute set, and,
    unless a plugin names the URI, [getPackageRequired] answers the flag
    that was given; what the document answers for another URI is as
    before. *)
Theorem addUnknownPackageRequired_then_get (pkgURI prefix : string) (flag : bool)
    (d : SBMLDocument) :
  let d' := (addUnknownPackageRequired pkgURI prefix flag d).2 in
  hasUnknownPackage pkgURI d' = true
  ∧ isSetPackageRequired pkgURI d' = true
  ∧ (list_find (names_package pkgURI) (mPlugins d) = None →
     getPackageRequired pkgURI d' = flag)
  ∧ ∀ other, other ≠ pkgURI →
      hasUnknownPackage other d' = hasUnknownPackage other d
      ∧ getPackageRequired other d' = getPackageRequired other d
      ∧ isSetPackageRequired other d' = isSetPackageRequired other d.
Proof.
  intros d'. unfold d', hasUnknownPackage, isSetPackageRequired,
    getPackageRequired, addUnknownPackageRequired. simpl.
  rewrite getValue_add_same. split_and!.
  - apply bool_decide_eq_true, bool_text_not_empty.
  - destruct (list_find _ _) as [[??]|]; [done|].
    rewrite decide_True; [done|apply bool_text_not_empty].
  - intros ->. apply bool_text_true.
  - intros other Hother.
    by rewrite !getValue_add_other by (by intros [_ ?]).
Qed.

(** X16.  [setPackageRequired] for a package that no plugin names: when
    the table of unknown packages has a non-empty "required" value for it,
    the call succeeds, [getPackageRequired] then answers the flag, and the
    attribute stays at its position with its prefix; otherwise the call
    fails with the unknown-package code and changes nothing. *)
Theorem setPackageRequired_unknown_package (package : string) (flag : bool)
    (d : SBMLDocument) :
  list_find (names_package package) (mPlugins d) = None →
  let attrs := mRequiredAttrOfUnknownPkg d in
  let r := setPackageRequired package flag d in
  let attrs' := mRequiredAttrOfUnknownPkg r.2 in
  if decide (getValue "required" package attrs ≠ "") then
    r.1 = LIBSBML_OPERATION_SUCCESS
    ∧ getPackageRequired package r.2 = flag
    ∧ length attrs' = length attrs
    ∧ getIndex "required" package attrs' = getIndex "required" package attrs
    ∧ prefix_at (getIndex "required" package attrs') attrs'
      = prefix_at (getIndex "required" package attrs) attrs
  else r = (LIBSBML_PKG_UNKNOWN_VERSION, d).
Proof.
  intros Hnone attrs r attrs'. unfold attrs', r, setPackageRequired, getPackageRequired.
  rewrite Hnone. fold attrs.
  destruct (decide (getValue "required" package attrs ≠ "")) as [Hset|Hunset];
    [|done]. simpl. rewrite Hnone.
  rewrite getValue_add_same. split_and!; [done|apply bool_text_true|..].
  all: destruct (add_cases "required" (bool_text flag) package
                   (prefix_at (getIndex "required" package attrs) attrs) attrs)
         as [(Habsent & _ & _)|(l1 & b & l2 & Hattrs & Hl1 & [Hbn Hbu] & Hindex & ->)].
  all: try (exfalso; apply Hset, getValue_absent;
            intros (c & Hc & HQ)%Exists_exists;
            rewrite Forall_forall in Habsent; by apply (Habsent c Hc)).
  - rewrite Hattrs, !length_app. done.
  - rewrite Hindex. unfold getIndex. by rewrite list_find_first.
  - unfold getIndex at 1. rewrite list_find_first by done. simpl.
    by rewrite list_lookup_middle.
Qed.

(** Position by position through the table. *)
Lemma unknown_package_loop_position (field : XMLAttribute → string)
    (index i : Z) (rest : XMLAttributes.t) :
  unknown_package_loop field index i rest =
  match (if decide (i ≤ index)%Z then rest !! Z.to_nat (index - i) else None) with
  | Some a => if decide (attr_name a = "required") then field a else ""
  | None => ""
  end.
Proof.
  revert i. induction rest as [|a rest IH]; intros i; simpl.
  { by case_decide. }
  assert (Hnext : unknown_package_loop field index (i + 1) rest =
                  match (if decide (i < index)%Z
                         then rest !! Z.to_nat (index - (i + 1)) else None) with
                  | Some a => if decide (attr_name a = "required") then field a else ""
                  | None => ""
                  end).
  { rewrite IH. destruct (decide (i + 1 ≤ index)%Z), (decide (i < index)%Z);
      (done || lia). }
  rewrite !Hnext. clear Hnext IH.
  destruct (decide (i = index)) as [->|Hne].
  - rewrite Z.sub_diag. simpl.
    destruct (decide (index ≤ index)%Z); [|lia].
    destruct (decide (index < index)%Z); [lia|].
    destruct (decide (attr_name a ≠ "required")),
      (decide (attr_name a = "required")); done.
  - destruct (decide (i < index)%Z) as [Hlt|Hge].
    + destruct (decide (i ≤ index)%Z); [|lia].
      replace (Z.to_nat (index - i)) with (S (Z.to_nat (index - (i + 1)))) by lia.
      simpl. by destruct (decide (attr_name a ≠ "required")).
    + destruct (decide (i ≤ index)%Z); [lia|].
      by destruct (decide (attr_name a ≠ "required")).
Qed.

(** X17.  [getUnknownPackageURI] and [getUnknownPackagePrefix] read the
    attribute at position [index] of the table of unknown packages: they
    answer its URI, respectively its prefix, when it is named "required",
    and the empty string when [index] is negative or past the end or the
    attribute has another name.  [getNumUnknownPackages] counts the
    attributes named "required". *)
Theorem unknown_packages_by_position (index : Z) (d : SBMLDocument) :
  let at_index := if decide (0 ≤ index)%Z
                  then mRequiredAttrOfUnknownPkg d !! Z.to_nat index else None in
  let read (field : XMLAttribute → string) :=
    match at_index with
    | Some a => if decide (attr_name a = "required") then field a else ""
    | None => ""
    end in
  getUnknownPackageURI index d = read attr_uri
  ∧ getUnknownPackagePrefix index d = read attr_prefix
  ∧ getNumUnknownPackages d
    = Z.of_nat (length (filter (λ a, attr_name a = "required")
                          (mRequiredAttrOfUnknownPkg d))).
Proof.
  intros at_index read. unfold read, at_index, getUnknownPackageURI,
    getUnknownPackagePrefix, getNumUnknownPackages.
  rewrite !unknown_package_loop_position, Z.sub_0_r. split_and!; [done..|].
  generalize (mRequiredAttrOfUnknownPkg d). intros attrs.
  assert (Hfold : ∀ count,
            foldl (λ count a, if decide (attr_name a = "required")
                              then (count + 1)%Z else count) count attrs
            = (count + Z.of_nat (length (filter (λ a, attr_name a = "required") attrs)))%Z).
  { induction attrs as [|a attrs IH]; intros count; simpl; [lia|].
    rewrite IH. rewrite filter_cons. case_decide; simpl; lia. }
  by rewrite Hfold.
Qed.

(** X18.  After an unknown package with a non-empty "required" value is
    disabled, the document no longer has it as an unknown package, keeps
    its "required" value in the table of disabled packages, and, unless
    the package URI is enabled, answers that it is a disabled ignored
    package. *)
Theorem disabled_unknown_package_is_remembered (pkgURI pkgPrefix : string)
    (d : SBMLDocument) (i : nat) (a : XMLAttribute) :
  required_table (mRequiredAttrOfUnknownPkg d) →
  find_package pkgURI pkgPrefix (mRequiredAttrOfUnknownPkg d) = Some (i, a) →
  attr_value a ≠ "" →
  let disabled := enablePackageInternal pkgURI pkgPrefix false d in
  hasUnknownPackage pkgURI disabled = false
  ∧ getValue "required" pkgURI (mRequiredAttrOfUnknownDisabledPkg disabled)
    = attr_value a
  ∧ (isPackageURIEnabled pkgURI (mPlugins disabled) = false →
     isDisabledIgnoredPackage pkgURI disabled = true).
Proof.
  intros Htable Hfind Hvalue disabled.
  unfold find_package in Hfind.
  apply list_find_split in Hfind as (l1 & l2 & Hl & _ & [Huri Hprefix] & _).
  rewrite Hl in Htable.
  destruct (delete_middle_required_table _ _ _ Htable) as [_ Hothers].
  destruct Htable as [Hnames _].
  apply Forall_app in Hnames as [_ [Hname _]%Forall_cons].
  assert (Hmove : ∀ to, move_package pkgURI pkgPrefix (mRequiredAttrOfUnknownPkg d) to
                        = (l1 ++ l2, add "required" (attr_value a) pkgURI pkgPrefix to)).
  { intros to. rewrite Hl, move_package_found, Hname; [done| |done..].
    apply Forall_app in Hothers as [H1 _]. by rewrite Huri. }
  assert (Hpkg : mRequiredAttrOfUnknownPkg disabled = l1 ++ l2)
    by (unfold disabled, enablePackageInternal; simpl; by rewrite Hmove).
  assert (Hdis : mRequiredAttrOfUnknownDisabledPkg disabled
                 = add "required" (attr_value a) pkgURI pkgPrefix
                     (mRequiredAttrOfUnknownDisabledPkg d))
    by (unfold disabled, enablePackageInternal; simpl; by rewrite Hmove).
  split_and!.
  - unfold hasUnknownPackage. rewrite Hpkg, getValue_absent.
    + by apply bool_decide_eq_false; intros ?.
    + intros (c & Hc & _ & Hcu)%Exists_exists.
      rewrite Forall_forall in Hothers. apply (Hothers c Hc). congruence.
  - by rewrite Hdis, getValue_add_same.
  - intros Henabled. unfold isDisabledIgnoredPackage.
    rewrite Henabled, Hdis, getValue_add_same. simpl. by rewrite decide_True.
Qed.

(** X19.  On a table with one attribute per namespace URI, disabling a
    package a second time changes neither of the side tables nor the map
    of use-default-namespace flags. *)
Theorem disabling_twice_changes_no_table (pkgURI pkgPrefix : string)
    (d : SBMLDocument) :
  required_table (mRequiredAttrOfUnknownPkg d) →
  let once := enablePackageInternal pkgURI pkgPrefix false d in
  let twice := enablePackageInternal pkgURI pkgPrefix false once in
  mRequiredAttrOfUnknownPkg twice = mRequiredAttrOfUnknownPkg once
  ∧ mRequiredAttrOfUnknownDisabledPkg twice = mRequiredAttrOfUnknownDisabledPkg once
  ∧ mPkgUseDefaultNSMap twice = mPkgUseDefaultNSMap once.
Proof.
  intros Htable once twice.
  assert (Hgone : find_package pkgURI pkgPrefix (mRequiredAttrOfUnknownPkg once) = None).
  { unfold once, enablePackageInternal, move_package. simpl.
    destruct (find_package pkgURI pkgPrefix (mRequiredAttrOfUnknownPkg d))
      as [[i a]|] eqn:Hfind; simpl; [|done].
    unfold find_package in *.
    apply list_find_split in Hfind as (l1 & l2 & Hl & <- & [Huri _] & _).
    rewrite Hl in Htable |- *. unfold remove. rewrite delete_middle.
    destruct (delete_middle_required_table _ _ _ Htable) as [_ Hothers].
    apply list_find_None. eapply Forall_impl; [exact Hothers|].
    intros c Hc [Hcu _]. apply Hc. congruence. }
  assert (Hnoop : ∀ d0, find_package pkgURI pkgPrefix (mRequiredAttrOfUnknownPkg d0) = None →
            mRequiredAttrOfUnknownPkg (enablePackageInternal pkgURI pkgPrefix false d0)
            = mRequiredAttrOfUnknownPkg d0
            ∧ mRequiredAttrOfUnknownDisabledPkg
                (enablePackageInternal pkgURI pkgPrefix false d0)
              = mRequiredAttrOfUnknownDisabledPkg d0
            ∧ mPkgUseDefaultNSMap (enablePackageInternal pkgURI pkgPrefix false d0)
              = delete pkgURI (mPkgUseDefaultNSMap d0)).
  { intros d0 Hd0. unfold enablePackageInternal, move_package. simpl.
    by rewrite Hd0. }
  unfold twice. destruct (Hnoop once Hgone) as (-> & -> & ->).
  split_and!; [done..|].
  unfold once, enablePackageInternal. simpl.
  destruct (move_package _ _ _ _). simpl. by rewrite delete_delete_eq.
Qed.

(** [add] for a URI leaves the attributes of the other URIs as they are
    and where they are. *)
Lemma add_keeps_other_uris (name value uri prefix : string)
    (attrs : XMLAttributes.t) :
  filter (λ b, attr_uri b ≠ uri) (add name value uri prefix attrs)
  = filter (λ b, attr_uri b ≠ uri) attrs.
Proof.
  destruct (add_cases name value uri prefix attrs)
    as [(_ & _ & ->)|(l1 & b & l2 & -> & _ & [_ Hbu] & _ & ->)].
  - rewrite filter_app, filter_cons_False by (simpl; tauto).
    by rewrite filter_nil, (right_id_L [] (++)).
  - rewrite !filter_app. f_equal.
    rewrite !filter_cons_False; [done|tauto|simpl; tauto].
Qed.

(** X20.  Enabling a package for which the table of disabled packages
    remembers a "required" attribute takes that attribute out of the table
    of disabled packages and makes its value the one recorded for the
    package URI among the unknown packages, also over a value recorded
    there in the meantime.  The attributes recorded for other URIs stay
    as they are, in their order, in both tables, so that every read of
    another URI answers as before. *)
Theorem enabling_takes_the_remembered_value (pkgURI pkgPrefix : string)
    (d : SBMLDocument) (i : nat) (a : XMLAttribute) :
  find_package pkgURI pkgPrefix (mRequiredAttrOfUnknownDisabledPkg d) = Some (i, a) →
  attr_name a = "required" →
  let enabled := enablePackageInternal pkgURI pkgPrefix true d in
  let others := filter (λ b, attr_uri b ≠ pkgURI) in
  getValue "required" pkgURI (mRequiredAttrOfUnknownPkg enabled) = attr_value a
  ∧ mRequiredAttrOfUnknownDisabledPkg enabled
    = delete i (mRequiredAttrOfUnknownDisabledPkg d)
  ∧ hasUnknownPackage pkgURI enabled = bool_decide (attr_value a ≠ "")
  ∧ others (mRequiredAttrOfUnknownPkg enabled) = others (mRequiredAttrOfUnknownPkg d)
  ∧ others (mRequiredAttrOfUnknownDisabledPkg enabled)
    = others (mRequiredAttrOfUnknownDisabledPkg d)
  ∧ ∀ other, other ≠ pkgURI →
      hasUnknownPackage other enabled = hasUnknownPackage other d
      ∧ ∀ name, getValue name other (mRequiredAttrOfUnknownPkg enabled)
                = getValue name other (mRequiredAttrOfUnknownPkg d).
Proof.
  intros Hfind Hname enabled others.
  assert (Hpkg : mRequiredAttrOfUnknownPkg enabled
                 = add "required" (attr_value a) pkgURI pkgPrefix
                     (mRequiredAttrOfUnknownPkg d)).
  { unfold enabled, enablePackageInternal, move_package. simpl.
    rewrite Hfind. simpl. by rewrite Hname. }
  assert (Hdis : mRequiredAttrOfUnknownDisabledPkg enabled
                 = delete i (mRequiredAttrOfUnknownDisabledPkg d)).
  { unfold enabled, enablePackageInternal, move_package. simpl.
    by rewrite Hfind. }
  unfold hasUnknownPackage. rewrite Hpkg, Hdis, getValue_add_same.
  split_and!; [done|done|done|apply add_keeps_other_uris| |].
  - apply list_find_split in Hfind as (l1 & l2 & Heq & Hlen & [Huri _] & _).
    rewrite Heq, <-Hlen. unfold others.
    rewrite delete_middle, !filter_app. f_equal.
    rewrite filter_cons_False; [done|]. intros Hne. by apply Hne.
  - intros other Hother.
    split; [by rewrite getValue_add_other by (by intros [_ ?])|].
    intros name. by rewrite getValue_add_other by (by intros [_ ?]).
Qed.

(** *** Lookup order *)

(** X21.  [getElementBySId] answers the model for the model's id before
    it asks the model or the plugins; [getElementByMetaId] answers the
    document before the model when both have the metaid, and the model
    before anything below it; with no model both ask the plugins only. *)
Theorem lookups_answer_nearest_first (d : SBMLDocument) (m : Model) :
  let with_model := set_mModel (Some m) d in
  let without_model := set_mModel None d in
  getElementBySId (Model_getId m) with_model
  = (if decide (Model_getId m = "") then None else Some TheModel)
  ∧ getElementByMetaId (Model_getMetaId m) with_model
    = (if decide (Model_getMetaId m = "") then None
       else if decide (mMetaId d = Model_getMetaId m) then Some ThisDocument
            else Some TheModel)
  ∧ (∀ id, getElementBySId id without_model
           = if decide (id = "") then None
             else InTree <$> getElementFromPluginsBySId (mPlugins d) id)
  ∧ (∀ metaid, getElementByMetaId metaid without_model
               = if decide (metaid = "") then None
                 else if decide (mMetaId d = metaid) then Some ThisDocument
                      else InTree <$> getElementFromPluginsByMetaId (mPlugins d) metaid).
Proof.
  intros with_model without_model.
  unfold getElementBySId, getElementByMetaId. simpl.
  split_and!.
  - case_decide; [done|]. by rewrite decide_True.
  - case_decide; [done|]. case_decide; [done|]. by rewrite decide_True.
  - done.
  - done.
Qed.

End UnknownPackageFacts.

Lemma side_tables_stay_required_tables_witness :
  XMLAttributes.required_table
    (Document.mRequiredAttrOfUnknownPkg Samples.packages_document)
  ∧ XMLAttributes.required_table
      (Document.mRequiredAttrOfUnknownDisabledPkg Samples.packages_document)
  ∧ XMLAttributes.required_table
      (Document.mRequiredAttrOfUnknownPkg
         (DocumentMore.addUnknownPackageRequired Samples.foo_uri "f" false
            Samples.packages_document).2).
Proof.
  assert (H1 : XMLAttributes.required_table
                 (Document.mRequiredAttrOfUnknownPkg Samples.packages_document)).
  { split; [by repeat constructor|]. by apply (bool_decide_unpack _); vm_compute. }
  assert (H2 : XMLAttributes.required_table
                 (Document.mRequiredAttrOfUnknownDisabledPkg Samples.packages_document)).
  { split; constructor. }
  split_and!; [exact H1|exact H2|].
  exact (proj1 (proj1 (side_tables_stay_required_tables
                         (plugin_ops := MoreSamples.plugin_ops)
                         Samples.packages_document H1 H2
                         Samples.foo_uri "f" false))).
Defined.

Lemma setPackageRequired_unknown_package_witness :
  list_find (DocumentMore.names_package (plugin_ops := MoreSamples.plugin_ops)
               Samples.foo_uri)
    (Document.mPlugins Samples.packages_document) = None
  ∧ (DocumentMore.setPackageRequired (plugin_ops := MoreSamples.plugin_ops)
       Samples.foo_uri false Samples.packages_document).1
    = Document.LIBSBML_OPERATION_SUCCESS.
Proof.
  split; [reflexivity|].
  exact (proj1 (setPackageRequired_unknown_package
                  (plugin_ops := MoreSamples.plugin_ops)
                  Samples.foo_uri false Samples.packages_document eq_refl)).
Defined.

Lemma disabled_unknown_package_is_remembered_witness :
  XMLAttributes.required_table
    (Document.mRequiredAttrOfUnknownPkg Samples.packages_document)
  ∧ Document.find_package Samples.foo_uri "foo"
      (Document.mRequiredAttrOfUnknownPkg Samples.packages_document)
    = Some (0, Samples.foo_required)
  ∧ XMLAttributes.attr_value Samples.foo_required ≠ ""
  ∧ DocumentMore.hasUnknownPackage Samples.foo_uri MoreSamples.foo_disabled = false.
Proof.
  assert (H1 : XMLAttributes.required_table
                 (Document.mRequiredAttrOfUnknownPkg Samples.packages_document)).
  { split; [by repeat constructor|]. by apply (bool_decide_unpack _); vm_compute. }
  assert (H3 : XMLAttributes.attr_value Samples.foo_required ≠ "") by done.
  split_and!; [exact H1|reflexivity|exact H3|].
  exact (proj1 (disabled_unknown_package_is_remembered
                  (plugin_ops := MoreSamples.plugin_ops)
                  Samples.foo_uri "foo" Samples.packages_document
                  0 Samples.foo_required H1 eq_refl H3)).
Defined.

Lemma disabling_twice_changes_no_table_witness :
  XMLAttributes.required_table
    (Document.mRequiredAttrOfUnknownPkg Samples.packages_document)
  ∧ Document.mRequiredAttrOfUnknownPkg
      (Document.enablePackageInternal Samples.foo_uri "foo" false
         MoreSamples.foo_disabled)
    = Document.mRequiredAttrOfUnknownPkg MoreSamples.foo_disabled.
Proof.
  assert (H1 : XMLAttributes.required_table
                 (Document.mRequiredAttrOfUnknownPkg Samples.packages_document)).
  { split; [by repeat constructor|]. by apply (bool_decide_unpack _); vm_compute. }
  split; [exact H1|].
  exact (proj1 (disabling_twice_changes_no_table Samples.foo_uri "foo"
                  Samples.packages_document H1)).
Defined.

Lemma enabling_takes_the_remembered_value_witness :
  Document.find_package Samples.foo_uri "foo"
    (Document.mRequiredAttrOfUnknownDisabledPkg MoreSamples.foo_disabled)
  = Some (0, Samples.foo_required)
  ∧ XMLAttributes.attr_name Samples.foo_required = "required"
  ∧ XMLAttributes.getValue "required" Samples.foo_uri
      (Document.mRequiredAttrOfUnknownPkg
         (Document.enablePackageInternal Samples.foo_uri "foo" true
            MoreSamples.foo_disabled))
    = XMLAttributes.attr_value Samples.foo_required.
Proof.
  split_and!; [reflexivity|reflexivity|].
  exact (proj1 (enabling_takes_the_remembered_value Samples.foo_uri "foo"
                  MoreSamples.foo_disabled 0 Samples.foo_required
                  eq_refl eq_refl)).
Defined.
